(** * Imports/Exports dashboard (Dashboard.py): model and properties

    A shallow embedding of the Streamlit script [Dashboard.py].  A pandas
    DataFrame is the list of its rows in positional order, a Series is the
    list of its values, an uncaught Python exception is the [Err] branch of
    [result], and the script itself runs in a small state-and-exception
    monad whose state is the file store and the elements rendered so far. *)

From Stdlib Require Import QArith Qminmax Qround.
From stdpp Require Import base option list strings sorting gmap.

Local Open Scope string_scope.
Local Open Scope list_scope.
Local Open Scope nat_scope.

(** ** Data model *)

(** One row of [Imports_Exports_Dataset.csv], restricted to the columns the
    script reads.  A numeric cell is [None] where the CSV cell is empty,
    which [read_csv] turns into NaN. *)
Record Row := mkRow {
  Country : string;
  Product : string;
  Import_Export : string;
  Category : string;
  Port : string;
  Shipping_Method : string;
  Supplier : string;
  Customer : string;
  Payment_Terms : string;
  Quantity : option Q;
  Value : option Q;
  Weight : option Q
}.

Abbreviation DataFrame := (list Row).

(** [df['c']]: a column as the Series of its values, in row order. *)
Definition column {A} (c : Row → A) (df : DataFrame) : list A := c <$> df.

(** ** Exceptions *)

(** A raised Python exception, identified by the name of its class. *)
Inductive exn := Raise (cls : string).

Definition KeyError := Raise "KeyError".
Definition ValueError := Raise "ValueError".
Definition OSError := Raise "OSError".
Definition PermissionError := Raise "PermissionError".
Definition FileNotFoundError := Raise "FileNotFoundError".

Inductive result (A : Type) :=
  | Ok (a : A)
  | Err (e : exn).
Arguments Ok {A} a.
Arguments Err {A} e.

Global Instance exn_eq_dec : EqDecision exn.
Proof. solve_decision. Defined.

(** ** Boolean masks and row selection *)

(** The operands of [&] in the preview filter: either the Python literal
    [True] or a boolean Series aligned with the frame. *)
Inductive mask :=
  | PyTrue
  | BoolSeries (bs : list bool).

(** [Series.isin(values)]. *)
Definition isin (s : list string) (values : list string) : list bool :=
  (λ v, bool_decide (v ∈ values)) <$> s.

(** [Series == scalar]. *)
Definition eq_scalar (s : list string) (v : string) : list bool :=
  (λ x, bool_decide (x = v)) <$> s.

(** [a & b]: element-wise on two Series, broadcast against a scalar [True]
    (through [Series.__and__] or [Series.__rand__]), plain [bool.__and__]
    on two scalars. *)
Definition mask_and (a b : mask) : mask :=
  match a, b with
  | PyTrue, PyTrue => PyTrue
  | PyTrue, BoolSeries bs => BoolSeries bs
  | BoolSeries bs, PyTrue => BoolSeries bs
  | BoolSeries b1, BoolSeries b2 => BoolSeries (zip_with andb b1 b2)
  end.

(** Rows of [df] whose flag is set, in frame order. *)
Fixpoint select_rows (df : DataFrame) (bs : list bool) : DataFrame :=
  match df, bs with
  | r :: df', b :: bs' =>
      if b then r :: select_rows df' bs' else select_rows df' bs'
  | _, _ => []
  end.

(** [df[key]] for the keys the script builds.  A boolean Series selects
    rows (pandas rejects one of the wrong length); the scalar [True] is
    looked up as a column label, which the frame does not have. *)
Definition getitem (df : DataFrame) (key : mask) : result DataFrame :=
  match key with
  | PyTrue => Err KeyError
  | BoolSeries bs =>
      if bool_decide (length bs = length df) then Ok (select_rows df bs)
      else Err ValueError
  end.

(** Truth value of a Python list. *)
Definition truthy {A} (l : list A) : bool :=
  match l with [] => false | _ => true end.

(** [df.head(n)]. *)
Definition head_rows (n : nat) (df : DataFrame) : DataFrame := take n df.

(** ** The two filters *)

(** Data Preview page, lines 38-45: the value bound to [filtered_df]. *)
Definition filtered_df (sample_df : DataFrame)
    (selected_countries : list string) (selected_product : string)
    : result DataFrame :=
  if truthy selected_countries || negb (bool_decide (selected_product = "All"))
  then
    getitem sample_df
      (mask_and
         (if truthy selected_countries
          then BoolSeries (isin (column Country sample_df) selected_countries)
          else PyTrue)
         (if negb (bool_decide (selected_product = "All"))
          then BoolSeries (eq_scalar (column Product sample_df) selected_product)
          else PyTrue))
  else Ok (head_rows 10 sample_df).

(** [df[df['c'] == v]]: the mask is built from the frame it indexes. *)
Definition where_eq (c : Row → string) (v : string) (df : DataFrame)
    : DataFrame :=
  select_rows df (eq_scalar (column c df) v).

(** Analysis page, lines 77-81: the value bound to [filtered_data]. *)
Definition filtered_data (sample_df : DataFrame)
    (selected_country : string) (import_export_choice : string)
    : DataFrame :=
  let filtered_data := sample_df in
  let filtered_data :=
    if negb (bool_decide (selected_country = "All"))
    then where_eq Country selected_country filtered_data
    else filtered_data in
  let filtered_data :=
    if negb (bool_decide (import_export_choice = "All"))
    then where_eq Import_Export import_export_choice filtered_data
    else filtered_data in
  filtered_data.

(** ** The filter as the specification words it *)

(** A row satisfies every active constraint of the predicate
    (country set, product, import/export choice). *)
Definition satisfies (country_set : list string) (product : string)
    (import_export : string) (r : Row) : Prop :=
  (country_set ≠ [] → Country r ∈ country_set) ∧
  (product ≠ "All" → Product r = product) ∧
  (import_export ≠ "All" → Import_Export r = import_export).

Global Instance satisfies_dec cs p ie r : Decision (satisfies cs p ie r).
Proof. unfold satisfies. apply _. Defined.

(** The country set an Analysis-page selection stands for. *)
Definition country_set_of (selected_country : string) : list string :=
  if bool_decide (selected_country = "All") then [] else [selected_country].

(** ** Aggregations *)

(** [Series.unique()]: the distinct values in order of first appearance. *)
Fixpoint unique (s : list string) : list string :=
  match s with
  | [] => []
  | x :: s' => x :: filter (λ y, y ≠ x) (unique s')
  end.

(** [Series.nunique()]. *)
Definition nunique (s : list string) : nat := length (unique s).

(** Number of rows of the Series holding [v]. *)
Definition occurrences (v : string) (s : list string) : nat :=
  length (filter (λ x, x = v) s).

(** The largest frequency in the Series (0 when it is empty). *)
Definition max_count (s : list string) : nat :=
  foldr (λ v m, Nat.max (occurrences v s) m) 0 (unique s).

(** [Series.mode()]: every value of maximal frequency; pandas collects
    them from its hash table and returns them sorted ([np.sort]), which
    for strings is the lexicographic order on code points. *)
Definition mode (s : list string) : list string :=
  merge_sort String.le
    (filter (λ v, occurrences v s = max_count s) (unique s)).

(** [Series.mode()[0]]: label 0 of the result, [KeyError] when the result
    is empty. *)
Definition mode0 (s : list string) : result string :=
  match mode s with
  | v :: _ => Ok v
  | [] => Err KeyError
  end.

(** [Series.min()] and [Series.max()] on a string column; [None] stands
    for the NaN pandas returns on an empty column. *)
Definition str_min (s : list string) : option string :=
  match s with
  | [] => None
  | x :: s' => Some (foldr (λ y m, if bool_decide (y ≤ m)%string then y else m) x s')
  end.

Definition str_max (s : list string) : option string :=
  match s with
  | [] => None
  | x :: s' => Some (foldr (λ y m, if bool_decide (m ≤ y)%string then y else m) x s')
  end.

(** A statistic of [describe]: the NaN marker, a rational, or the square
    root of a rational (the standard deviation).  The values are exact:
    the rounding and overflow of float64 and infinite cells are outside
    the model. *)
Inductive stat :=
  | NaN
  | Num (q : Q)
  | Sqrt (q : Q).

Definition Qle_b (x y : Q) : Prop := Qle_bool x y = true.

Global Instance Qle_b_dec : RelDecision Qle_b.
Proof. intros x y. unfold Qle_b. apply _. Defined.

Definition Qsum (xs : list Q) : Q := foldr Qplus 0%Q xs.

Definition Qlen (xs : list Q) : Q := inject_Z (Z.of_nat (length xs)).

(** The cells of a numeric column that hold a value; the statistics of
    pandas skip the missing ones. *)
Definition present (cells : list (option Q)) : list Q := omap id cells.

(** [Series.count()]: the number of cells that are not missing. *)
Definition count (cells : list (option Q)) : nat := length (present cells).

(** [Series.mean()]: NaN on an empty Series. *)
Definition mean (xs : list Q) : stat :=
  match xs with
  | [] => NaN
  | _ => Num (Qred (Qsum xs / Qlen xs))
  end.

(** [Series.std()], sample standard deviation (ddof = 1): NaN below two
    values. *)
Definition std (xs : list Q) : stat :=
  match xs with
  | [] | [_] => NaN
  | _ =>
      let m := (Qsum xs / Qlen xs)%Q in
      let ss := Qsum ((λ x, (x - m) * (x - m))%Q <$> xs) in
      Sqrt (Qred (ss / (Qlen xs - 1)))
  end.

(** [Series.min()] / [Series.max()] on a numeric column. *)
Definition num_min (xs : list Q) : stat :=
  match xs with
  | [] => NaN
  | x :: xs' => Num (foldr Qmin x xs')
  end.

Definition num_max (xs : list Q) : stat :=
  match xs with
  | [] => NaN
  | x :: xs' => Num (foldr Qmax x xs')
  end.

(** [Series.quantile(p)] with linear interpolation between the order
    statistics at positions [floor h] and [floor h + 1], [h = (n-1) p]. *)
Definition quantile (p : Q) (xs : list Q) : stat :=
  let ys := merge_sort Qle_b xs in
  match ys with
  | [] => NaN
  | y0 :: _ =>
      let h := (inject_Z (Z.of_nat (length ys - 1)) * p)%Q in
      let g := (h - inject_Z (Qfloor h))%Q in
      let lo := nth (Z.to_nat (Qfloor h)) ys y0 in
      let hi := nth (S (Z.to_nat (Qfloor h))) ys lo in
      Num (Qred (lo + g * (hi - lo)))
  end.

(** One row of [describe().T]. *)
Record Describe := mkDescribe {
  d_count : nat;
  d_mean : stat;
  d_std : stat;
  d_min : stat;
  d_25 : stat;
  d_50 : stat;
  d_75 : stat;
  d_max : stat
}.

(** [Series.describe()] on a numeric column: the count of the cells that
    are present and the statistics of their values. *)
Definition describe (cells : list (option Q)) : Describe :=
  let xs := present cells in
  {| d_count := count cells;
     d_mean := mean xs;
     d_std := std xs;
     d_min := num_min xs;
     d_25 := quantile (1 # 4) xs;
     d_50 := quantile (1 # 2) xs;
     d_75 := quantile (3 # 4) xs;
     d_max := num_max xs |}.

(** Line 53: [filtered_df[['Quantity', 'Value', 'Weight']].describe().T],
    one labelled row per numeric column. *)
Definition summary_df (filtered : DataFrame) : list (string * Describe) :=
  [ ("Quantity", describe (column Quantity filtered));
    ("Value", describe (column Value filtered));
    ("Weight", describe (column Weight filtered)) ].

(** ** The environment of a script run *)

(** File-system calls made by the script, in order; kept as a trace so
    that the number of attempts of an operation can be stated. *)
Inductive io_event :=
  | OpenRead (path : string)
  | OpenWrite (path : string).

(** How an export to a path goes wrong.  [OpenDenied]: the path cannot be
    opened for writing (the file is read-only) and the file is left as it
    was.  [WriteBroken remains]: the open succeeds, which empties the file,
    and the write breaks off before the end (the disk is full); [remains] is
    what the file then holds. *)
Inductive write_fault :=
  | OpenDenied
  | WriteBroken (remains : DataFrame).

(** The files (a CSV file is the frame pandas parses from it or writes to
    it; the CSV text itself is not modelled), the paths to which an export
    fails, with the way it fails, the trace, and numpy's process-wide
    generator: [np_random n] is the shuffle [numpy.random.permutation(n)]
    would return in this process, which is seeded from the operating
    system and so differs from one process to the next. *)
Record world := World {
  files : gmap string DataFrame;
  faults : list (string * write_fault);
  trace : list io_event;
  np_random : nat → list nat
}.

(** A world whose process-wide generator leaves the rows in place. *)
Definition mkWorld (files : gmap string DataFrame)
    (faults : list (string * write_fault)) (trace : list io_event) : world :=
  World files faults trace (seq 0).

(** The fault of the first entry for [path], if there is one. *)
Fixpoint fault_at (path : string) (fs : list (string * write_fault))
    : option write_fault :=
  match fs with
  | [] => None
  | (p, fault) :: fs' =>
      if bool_decide (p = path) then Some fault else fault_at path fs'
  end.

(** The paths to which an export does not go through. *)
Definition read_only (w : world) : list string := (faults w).*1.

(** The exception a failing export raises: [PermissionError] from the
    open, a plain [OSError] (no space left on device) from the write.
    Both are [OSError]s in Python's hierarchy. *)
Definition fault_exn (fault : write_fault) : exn :=
  match fault with
  | OpenDenied => PermissionError
  | WriteBroken _ => OSError
  end.

Inductive metric_value :=
  | MInt (n : nat)
  | MStr (s : string).

(** The matplotlib figures handed to [st.pyplot].  The bar chart is drawn
    from [filtered_data['Country'].value_counts().head(5)] and is
    identified here by the column it counts; the other three figures are
    built from literals in the source. *)
Inductive figure :=
  | TopCountriesBar (countries : list string)
  | WeightHeatmap
  | PaymentTermsBar
  | EconomicImpactPie.

(** What the script has put on the page so far. *)
Inductive element :=
  | PageConfig (page_title layout : string)
  | SidebarTitle (text : string)
  | SidebarSelectbox (label : string) (options : list string)
  | SidebarMultiselect (label : string) (options : list string)
  | SidebarRadio (label : string) (options : list string)
  | Title (text : string)
  | Markdown (text : string)
  | Subheader (text : string)
  | ShowDataframe (df : DataFrame)
  | SummaryTable (rows : list (string * Describe))
  | Button (label : string)
  | Success (text : string)
  | SidebarInfo (text : string)
  | Metric (label : string) (value : metric_value)
  | Pyplot (fig : figure)
  | WriteText (text : string)
  | ValueTable (heading : string) (rows : list (string * option string)).

Record session := mkSession {
  sys : world;
  screen : list element
}.

(** The values the widgets return in this run (Streamlit reruns the whole
    script on every interaction and each widget call returns the current
    choice of the user). *)
Record widgets := mkWidgets {
  ui_page : string;
  ui_countries : list string;
  ui_product : string;
  ui_save : bool;
  ui_country : string;
  ui_import_export : string
}.

(** ** The script monad: state and exceptions *)

Definition St (A : Type) : Type := session → result A * session.

Global Instance St_ret : MRet St := λ A a s, (Ok a, s).

Global Instance St_bind : MBind St := λ A B f m s,
  match m s with
  | (Ok a, s') => f a s'
  | (Err e, s') => (Err e, s')
  end.

(** A pure computation that may raise. *)
Definition lift {A} (r : result A) : St A := λ s, (r, s).

(** Append an element to the page. *)
Definition emit (e : element) : St unit := λ s,
  (Ok tt, {| sys := sys s; screen := screen s ++ [e] |}).

Definition log_io (ev : io_event) (w : world) : world :=
  {| files := files w; faults := faults w; trace := trace w ++ [ev];
     np_random := np_random w |}.

(** Replace the content of one file. *)
Definition set_file (path : string) (df : DataFrame) (w : world) : world :=
  {| files := <[path := df]> (files w); faults := faults w;
     trace := trace w; np_random := np_random w |}.

(** [pd.read_csv(path)]. *)
Definition read_csv (path : string) : St DataFrame := λ s,
  let w := log_io (OpenRead path) (sys s) in
  let s' := {| sys := w; screen := screen s |} in
  match files w !! path with
  | Some df => (Ok df, s')
  | None => (Err FileNotFoundError, s')
  end.

(** [df.to_csv(path, index=False)]: opens [path] for writing and writes
    the rows of [df].  The open raises [PermissionError] when the path is
    not writable and otherwise empties the file; the write then replaces
    its content by the rows of [df], or breaks off with an [OSError] and
    leaves the file short. *)
Definition to_csv (df : DataFrame) (path : string) : St unit := λ s,
  let w := log_io (OpenWrite path) (sys s) in
  match fault_at path (faults w) with
  | Some OpenDenied =>
      (Err PermissionError, {| sys := w; screen := screen s |})
  | Some (WriteBroken remains) =>
      (Err OSError, {| sys := set_file path remains w; screen := screen s |})
  | None =>
      (Ok tt, {| sys := set_file path df w; screen := screen s |})
  end.

(** Widgets: the call renders the widget and returns the user's choice. *)
Definition sidebar_selectbox (label : string) (options : list string)
    (choice : string) : St string :=
  emit (SidebarSelectbox label options);; mret choice.

Definition sidebar_multiselect (label : string) (options : list string)
    (choice : list string) : St (list string) :=
  emit (SidebarMultiselect label options);; mret choice.

Definition sidebar_radio (label : string) (options : list string)
    (choice : string) : St string :=
  emit (SidebarRadio label options);; mret choice.

Definition button (label : string) (clicked : bool) : St bool :=
  emit (Button label);; mret clicked.

(** How a run of the script ends: Streamlit shows an uncaught exception
    in place of the rest of the page. *)
Inductive outcome :=
  | Completed
  | Uncaught (e : exn).

Definition run (script : St unit) (w : world) : outcome * session :=
  match script {| sys := w; screen := [] |} with
  | (Ok _, s) => (Completed, s)
  | (Err e, s) => (Uncaught e, s)
  end.

(** ** The pages *)

(** Lines 18-28.  The body of the markdown block is static text, kept by
    its first heading only. *)
Definition welcome_page : St unit :=
  emit (Title "Welcome to the Imports/Exports Dashboard");;
  emit (Markdown "#### Purpose:").

(** Lines 30-59. *)
Definition data_preview (sample_df : DataFrame) (ui : widgets) : St unit :=
  emit (Title "📊 Data Preview Dashboard");;
  selected_countries ←
    sidebar_multiselect "Select Countries"
      (unique (column Country sample_df)) (ui_countries ui);
  selected_product ←
    sidebar_selectbox "Select Product"
      ("All" :: unique (column Product sample_df)) (ui_product ui);
  filtered ← lift (filtered_df sample_df selected_countries selected_product);
  emit (Subheader
          (if truthy selected_countries
              || negb (bool_decide (selected_product = "All"))
           then "Filtered Data" else "First 10 Rows of Data"));;
  emit (ShowDataframe filtered);;
  emit (Subheader "Summary Statistics");;
  emit (SummaryTable (summary_df filtered));;
  clicked ← button "Save Filtered Data" (ui_save ui);
  if clicked : bool then
    to_csv filtered "Filtered_Data.csv";;
    emit (Success "Filtered data saved as 'Filtered_Data.csv'")
  else mret tt.

(** The nine columns of the minimum/maximum tables, with their labels. *)
Definition min_max_fields : list (string * (Row → string)) :=
  [ ("Country", Country); ("Product", Product);
    ("Import_Export", Import_Export); ("Category", Category);
    ("Port", Port); ("Shipping Method", Shipping_Method);
    ("Supplier", Supplier); ("Customer", Customer);
    ("Payment Terms", Payment_Terms) ].

(** Lines 61-180. *)
Definition analysis_dashboard (sample_df : DataFrame) (ui : widgets)
    : St unit :=
  emit (Title "📊 Comprehensive Analysis Dashboard");;
  emit (Metric "Total Records" (MInt (length sample_df)));;
  emit (Metric "Unique Products"
          (MInt (nunique (column Product sample_df))));;
  emit (Metric "Unique Countries"
          (MInt (nunique (column Country sample_df))));;
  shipping ← lift (mode0 (column Shipping_Method sample_df));
  emit (Metric "Most Used Shipping Method" (MStr shipping));;
  top_product ← lift (mode0 (column Product sample_df));
  emit (Metric "Top Product" (MStr top_product));;
  emit (SidebarTitle "Filters");;
  selected_country ←
    sidebar_selectbox "Country"
      ("All" :: unique (column Country sample_df)) (ui_country ui);
  import_export_choice ←
    sidebar_radio "Import/Export" ["All"; "Import"; "Export"]
      (ui_import_export ui);
  let filtered := filtered_data sample_df selected_country import_export_choice in
  emit (Subheader "Data Visualizations");;
  emit (Subheader
          ("Top 5 Countries by "
           +:+ (if negb (bool_decide (import_export_choice = "All"))
                then import_export_choice else "Total")
           +:+ " Volume"));;
  emit (Pyplot (TopCountriesBar (column Country filtered)));;
  emit (Subheader "Maximum Weight in KGs per Shipping Method and Category");;
  emit (Pyplot WeightHeatmap);;
  emit (Subheader "Count of Products by Payment Terms per Category");;
  emit (Pyplot PaymentTermsBar);;
  emit (Subheader "Category Ranking by Total Economic Impact");;
  emit (Pyplot EconomicImpactPie);;
  emit (Subheader "Minimum and Maximum Values");;
  emit (WriteText "Minimum Values");;
  emit (ValueTable "Minimum Value"
          ((λ f, (f.1, str_min (column f.2 sample_df))) <$> min_max_fields));;
  emit (WriteText "Maximum Values");;
  emit (ValueTable "Maximum Value"
          ((λ f, (f.1, str_max (column f.2 sample_df))) <$> min_max_fields)).

(** Lines 182-214; static text, kept by its headings. *)
Definition insights_page : St unit :=
  emit (Title "🔍 Key Observations and Insights");;
  emit (Markdown "## Summary of Key Findings");;
  emit (Markdown "## Managerial Insights");;
  emit (Markdown "## Recommendations");;
  emit (Markdown "### Conclusion").

(** ** Loading and the whole script *)

Definition file_path : string := "Imports_Exports_Dataset.csv".

Definition page_names : list string :=
  [ "Welcome Page"; "Data Preview"; "Analysis Dashboard";
    "Key Observations and Insights" ].

Section Script.

(** [numpy.random.RandomState(seed).permutation(n)]: the shuffle of
    [0 .. n-1] the Mersenne Twister produces from [seed].  The generator
    is not modelled; it enters as a function of the seed and the
    population size, which is all the script lets it depend on. *)
Variable permutation : Z → nat → list nat.

(** [df.sample(n=n, random_state=seed)]: sampling without replacement.
    pandas builds a fresh [RandomState] from the integer seed and asks
    it for [choice(len(df), size=n, replace=False)], which raises
    [ValueError] ("Cannot take a larger sample than population when
    'replace=False'") when [n] exceeds the population and otherwise
    takes the first [n] positions of the permutation; the rows at those
    positions are returned in that order. *)
Definition sample (df : DataFrame) (n : nat) (random_state : Z)
    : result DataFrame :=
  if bool_decide (length df < n) then Err ValueError
  else Ok (omap (λ i, df !! i)
             (take n (permutation random_state (length df)))).

(** [df.sample(n=n, random_state=random_state)] as pandas dispatches on
    [random_state]: an integer seeds a generator of its own, as in
    [sample]; [None] draws from numpy's process-wide generator, here the
    [np_random] of the world (how that generator advances is not
    modelled; the script never draws from it). *)
Definition df_sample (df : DataFrame) (n : nat) (random_state : option Z)
    : St DataFrame := λ s,
  match random_state with
  | Some seed => (sample df n seed, s)
  | None =>
      (if bool_decide (length df < n) then Err ValueError
       else Ok (omap (λ i, df !! i) (take n (np_random (sys s) (length df)))),
       s)
  end.

(** Lines 7-8: the value bound to [sample_df]. *)
Definition load_sample : St DataFrame :=
  df ← read_csv file_path;
  df_sample df 3001 (Some 55054%Z).

(** The script, top to bottom. *)
Definition dashboard (ui : widgets) : St unit :=
  sample_df ← load_sample;
  emit (PageConfig "Imports/Exports Dashboard" "wide");;
  emit (SidebarTitle "Navigation");;
  page ← sidebar_selectbox "Select Page" page_names (ui_page ui);
  (if bool_decide (page = "Welcome Page") then welcome_page
   else if bool_decide (page = "Data Preview") then
     data_preview sample_df ui
   else if bool_decide (page = "Analysis Dashboard") then
     analysis_dashboard sample_df ui
   else if bool_decide (page = "Key Observations and Insights") then
     insights_page
   else mret tt);;
  emit (SidebarInfo "Developed by [Amitanshu Tiwari- 055054]").

End Script.

(** ** The tie-break of [mode] as the specification words it *)

(** The first value, in row order, among the values of maximal
    frequency. *)
Definition first_most_frequent (s : list string) : option string :=
  head (filter (λ v, occurrences v s = max_count s) s).

(** ** Reading the page back *)

(** The metric cards on a page, in rendering order. *)
Definition metric_cards (sc : list element) : list (string * metric_value) :=
  omap (λ e, match e with Metric l v => Some (l, v) | _ => None end) sc.

(** The row [describe] yields for a column without values. *)
Definition nan_row : Describe :=
  mkDescribe 0 NaN NaN NaN NaN NaN NaN NaN.

(** ** Sample data for the examples *)

Definition trade (country product import_export shipping : string) (q : Q)
    : Row :=
  mkRow country product import_export "Toys" "Mumbai" shipping
        "Acme" "Smith" "Prepaid" (Some q) (Some q) (Some q).

Definition four_rows : DataFrame :=
  [ trade "USA" "Toy" "Import" "Sea" 1;
    trade "India" "Car" "Export" "Air" 2;
    trade "USA" "Car" "Export" "Sea" 4;
    trade "Peru" "Toy" "Export" "Air" 8 ].

(** A frame of [n] rows whose quantities number them. *)
Definition numbered_rows (n : nat) : DataFrame :=
  (λ i, trade "USA" "Toy" "Import" "Sea" (inject_Z (Z.of_nat i))) <$> seq 0 n.

(** A generator that leaves the rows in place. *)
Definition identity_permutation : Z → nat → list nat := λ _ n, seq 0 n.

(** A generator that reverses the rows. *)
Definition reversing_generator : nat → list nat := λ n, reverse (seq 0 n).

Definition empty_world : world := mkWorld ∅ [] [].

Definition no_selection : widgets :=
  mkWidgets "Data Preview" [] "All" false "All" "All".

(** The text of line 215. *)
Definition footer : string := "Developed by [Amitanshu Tiwari- 055054]".

(** The branch of lines 18-213 the page selector hands over to. *)
Definition selected_page (sample_df : DataFrame) (ui : widgets) : St unit :=
  if bool_decide (ui_page ui = "Welcome Page") then welcome_page
  else if bool_decide (ui_page ui = "Data Preview") then
    data_preview sample_df ui
  else if bool_decide (ui_page ui = "Analysis Dashboard") then
    analysis_dashboard sample_df ui
  else if bool_decide (ui_page ui = "Key Observations and Insights") then
    insights_page
  else mret tt.

(** The same widget state with the save button pressed or released. *)
Definition with_save (clicked : bool) (ui : widgets) : widgets :=
  {| ui_page := ui_page ui;
     ui_countries := ui_countries ui;
     ui_product := ui_product ui;
     ui_save := clicked;
     ui_country := ui_country ui;
     ui_import_export := ui_import_export ui |}.

(** A world whose source file has [n] rows. *)
Definition world_with_rows (n : nat) : world :=
  mkWorld {[ file_path := numbered_rows n ]} [] [].

(** The same source file in a process whose generator, trace and faults
    are different. *)
Definition other_world_with_rows (n : nat) : world :=
  World {[ file_path := numbered_rows n ]}
    [("Filtered_Data.csv", OpenDenied)] [OpenRead file_path]
    reversing_generator.

(** A source file of [n] rows beside an export file that cannot be
    opened for writing. *)
Definition denied_world_with_rows (n : nat) : world :=
  mkWorld {[ file_path := numbered_rows n;
             "Filtered_Data.csv" := four_rows ]}
    [("Filtered_Data.csv", OpenDenied)] [].

(** A source file of [n] rows beside an export file on a disk that fills
    up after one row. *)
Definition full_disk_world_with_rows (n : nat) : world :=
  mkWorld {[ file_path := numbered_rows n;
             "Filtered_Data.csv" := four_rows ]}
    [("Filtered_Data.csv", WriteBroken (take 1 (numbered_rows n)))] [].

(** Symbolic execution of a script: unfold the monad and the widget
    calls, leaving the aggregations of the frame folded. *)
Ltac step_script :=
  unfold run;
  repeat (progress
    (unfold mbind, St_bind, mret, St_ret, lift, emit, button,
       sidebar_selectbox, sidebar_multiselect, sidebar_radio;
     cbn -[filtered_df filtered_data summary_df unique mode0 nunique
           str_min str_max column])).

(** * Properties *)

(** ** Row selection *)

Section Selection.
Context (f : Row → bool) (P : Row → Prop) `{!∀ r, Decision (P r)}.
Hypothesis f_decides : ∀ r, f r = true ↔ P r.

(** Indexing a frame by a mask computed row by row from that same frame
    is filtering by the row predicate the mask decides. *)
Lemma select_rows_fmap (df : DataFrame) :
  select_rows df (f <$> df) = filter P df.
Proof using f_decides.
  induction df as [|r df IH]; [done|].
  cbn [fmap list_fmap select_rows]. rewrite filter_cons.
  destruct (f r) eqn:Hf.
  - rewrite decide_True by (by apply f_decides). by f_equal.
  - rewrite decide_False; [done|].
    intros HP%f_decides. congruence.
Qed.
End Selection.

Lemma zip_with_andb_fmap (f g : Row → bool) (df : DataFrame) :
  zip_with andb (f <$> df) (g <$> df) = (λ r, f r && g r) <$> df.
Proof. induction df as [|r df IH]; [done|]. cbn. by f_equal. Qed.

Lemma truthy_true {A} (l : list A) : truthy l = true ↔ l ≠ [].
Proof. destruct l; cbn; split; (done || congruence). Qed.

Lemma truthy_false {A} (l : list A) : truthy l = false ↔ l = [].
Proof. destruct l; cbn; split; (done || congruence). Qed.

Lemma where_eq_filter (c : Row → string) (v : string) (df : DataFrame) :
  where_eq c v df = filter (λ r, c r = v) df.
Proof.
  unfold where_eq, eq_scalar, column.
  rewrite <- list_fmap_compose.
  apply (select_rows_fmap (λ r, bool_decide (c r = v))).
  intros r. cbn. apply bool_decide_eq_true.
Qed.

(** ** The Data Preview filter *)

(** With at least one active constraint, lines 39-42 keep exactly the
    rows satisfying the constraints. *)
Lemma filtered_df_active (D : DataFrame) (cs : list string) (p : string) :
  cs ≠ [] ∨ p ≠ "All" →
  filtered_df D cs p = Ok (filter (satisfies cs p "All") D).
Proof.
  intros Hact. unfold filtered_df, column, isin, eq_scalar.
  destruct (truthy cs) eqn:Hcs; destruct (bool_decide (p = "All")) eqn:Hp; cbn.
  - apply truthy_true in Hcs. apply bool_decide_eq_true in Hp.
    rewrite <- list_fmap_compose, length_fmap, bool_decide_eq_true_2 by done.
    f_equal. apply select_rows_fmap.
    intros r. cbn. rewrite bool_decide_eq_true. unfold satisfies.
    intuition (subst; congruence || done).
  - apply truthy_true in Hcs. apply bool_decide_eq_false in Hp.
    rewrite <- !list_fmap_compose, zip_with_andb_fmap.
    rewrite length_fmap, bool_decide_eq_true_2 by done.
    f_equal. apply select_rows_fmap.
    intros r. cbn. rewrite andb_true_iff, !bool_decide_eq_true.
    unfold satisfies. intuition (subst; congruence || done).
  - apply truthy_false in Hcs. apply bool_decide_eq_true in Hp.
    intuition (subst; congruence || done).
  - apply truthy_false in Hcs. apply bool_decide_eq_false in Hp.
    rewrite <- list_fmap_compose, length_fmap, bool_decide_eq_true_2 by done.
    f_equal. apply select_rows_fmap.
    intros r. cbn. rewrite bool_decide_eq_true. unfold satisfies.
    intuition (subst; congruence || done).
Qed.

(** With no active constraint, line 45 takes the head of the frame. *)
Lemma filtered_df_inactive (D : DataFrame) :
  filtered_df D [] "All" = Ok (head_rows 10 D).
Proof. reflexivity. Qed.

(** ** The Analysis filter *)

Lemma filtered_data_exact (D : DataFrame) (c ie : string) :
  filtered_data D c ie = filter (satisfies (country_set_of c) "All" ie) D.
Proof.
  unfold filtered_data, country_set_of.
  rewrite !where_eq_filter.
  destruct (bool_decide (c = "All")) eqn:Hc;
    destruct (bool_decide (ie = "All")) eqn:Hie; cbn [negb].
  - apply bool_decide_eq_true in Hie.
    induction D as [|r D IH]; [done|].
    rewrite filter_cons, decide_True; [by f_equal|].
    unfold satisfies. intuition (subst; congruence || done).
  - apply bool_decide_eq_false in Hie.
    apply list_filter_iff. intros r. unfold satisfies. intuition (subst; congruence || done).
  - apply bool_decide_eq_true in Hie. apply bool_decide_eq_false in Hc.
    apply list_filter_iff. intros r. unfold satisfies.
    rewrite list_elem_of_singleton. intuition (subst; congruence || done).
  - apply bool_decide_eq_false in Hie. apply bool_decide_eq_false in Hc.
    rewrite list_filter_filter.
    apply list_filter_iff. intros r. unfold satisfies.
    rewrite list_elem_of_singleton. intuition (subst; congruence || done).
Qed.

Lemma head_rows_sublist (D : DataFrame) : head_rows 10 D `sublist_of` D.
Proof. apply sublist_take. Qed.

(** C1, as stated, at the empty predicate on the Data Preview page: every
    one of the eleven rows satisfies the (empty) set of constraints, yet
    the filter returns only ten of them. *)
Lemma preview_filter_empty_predicate_drops_rows :
  filtered_df (numbered_rows 11) [] "All"
  ≠ Ok (filter (satisfies [] "All" "All") (numbered_rows 11)).
Proof.
  intros H.
  apply (f_equal (λ r, match r with Ok l => length l | Err _ => 0 end)) in H.
  vm_compute in H. discriminate H.
Qed.

(** C1 (amended): on the Data Preview page the filter output is always an
    order-preserving subsequence of the dataset; it is exactly the rows
    satisfying every active constraint when at least one constraint is
    active (non-empty country set or product other than "All"), and the
    first ten rows when none is.  On the Analysis page the filter output
    is, for every country choice and import/export choice, exactly the
    order-preserving subsequence of the rows satisfying every active
    constraint. *)
Theorem filter_exact_and_stable (D : DataFrame) (cs : list string)
    (p c ie : string) :
  (∃ out, filtered_df D cs p = Ok out ∧ out `sublist_of` D ∧
     (cs ≠ [] ∨ p ≠ "All" → out = filter (satisfies cs p "All") D) ∧
     (cs = [] ∧ p = "All" → out = head_rows 10 D)) ∧
  filtered_data D c ie = filter (satisfies (country_set_of c) "All" ie) D ∧
  filtered_data D c ie `sublist_of` D.
Proof.
  split; [|split].
  - destruct (decide (cs ≠ [] ∨ p ≠ "All")) as [Hact|Hno].
    + exists (filter (satisfies cs p "All") D). split; [|split; [|split]].
      * by apply filtered_df_active.
      * apply sublist_filter.
      * done.
      * intros [-> ->]. destruct Hact; congruence.
    + assert (cs = [] ∧ p = "All") as [-> ->].
      { split.
        - destruct cs; [done|]. exfalso. apply Hno. by left.
        - destruct (decide (p = "All")); [done|]. exfalso. apply Hno.
          by right. }
      exists (head_rows 10 D). split; [|split; [|split]].
      * apply filtered_df_inactive.
      * apply head_rows_sublist.
      * intros Hact. exfalso. by apply Hno.
      * done.
  - apply filtered_data_exact.
  - rewrite filtered_data_exact. apply sublist_filter.
Qed.

Lemma filter_exact_and_stable_witness :
  (∃ out, filtered_df four_rows ["USA"; "India"] "All" = Ok out ∧
     out `sublist_of` four_rows ∧
     (["USA"; "India"] ≠ [] ∨ "All" ≠ "All" →
      out = filter (satisfies ["USA"; "India"] "All" "All") four_rows) ∧
     (["USA"; "India"] = [] ∧ "All" = "All" → out = head_rows 10 four_rows)) ∧
  filtered_data four_rows "USA" "Export"
  = filter (satisfies (country_set_of "USA") "All" "Export") four_rows ∧
  filtered_data four_rows "USA" "Export" `sublist_of` four_rows.
Proof.
  apply (filter_exact_and_stable four_rows ["USA"; "India"] "All" "USA" "Export").
Defined.

(** What the two filters return on the sample rows. *)
Example filtered_df_four_rows :
  column Quantity <$> match filtered_df four_rows ["USA"; "India"] "Car" with
                      | Ok out => Some out
                      | Err _ => None
                      end
  = Some [Some 2%Q; Some 4%Q].
Proof. reflexivity. Qed.

Example filtered_data_four_rows :
  column Quantity (filtered_data four_rows "All" "Export") = [Some 2%Q; Some 4%Q; Some 8%Q].
Proof. reflexivity. Qed.

(** C2: with an empty country set and product "All" the Data Preview
    filter returns exactly the first ten records of the dataset, which is
    not the whole dataset as soon as it has more than ten rows. *)
Theorem no_predicate_first_ten (D : DataFrame) :
  filtered_df D [] "All" = Ok (take 10 D) ∧
  (10 < length D → filtered_df D [] "All" ≠ Ok D).
Proof.
  split; [apply filtered_df_inactive|].
  intros Hlen. rewrite filtered_df_inactive. unfold head_rows.
  intros [= Heq]. apply (f_equal length) in Heq.
  rewrite length_take in Heq. lia.
Qed.

Lemma no_predicate_first_ten_witness :
  filtered_df (numbered_rows 11) [] "All" = Ok (take 10 (numbered_rows 11)) ∧
  filtered_df (numbered_rows 11) [] "All" ≠ Ok (numbered_rows 11).
Proof.
  destruct (no_predicate_first_ten (numbered_rows 11)) as [Hhead Hneq].
  split; [exact Hhead|]. apply Hneq. vm_compute. lia.
Defined.

(** ** Unique values, frequencies and the mode *)

Lemma elem_of_unique (s : list string) (v : string) : v ∈ unique s ↔ v ∈ s.
Proof.
  induction s as [|x s IH]; [done|].
  cbn [unique]. rewrite !elem_of_cons, list_elem_of_filter, IH.
  destruct (decide (v = x)); intuition.
Qed.

Lemma unique_nil_inv (s : list string) : unique s = [] → s = [].
Proof. by destruct s. Qed.

Section FoldMax.
Context {A : Type} (f : A → nat).

Lemma fold_max_upper (l : list A) (v : A) :
  v ∈ l → f v ≤ foldr (λ v m, Nat.max (f v) m) 0 l.
Proof.
  induction l as [|x l IH]; [by intros ?%elem_of_nil|].
  intros [->|Hin]%elem_of_cons; cbn; [lia|].
  specialize (IH Hin). lia.
Qed.

Lemma fold_max_attained (l : list A) :
  l ≠ [] → ∃ v, v ∈ l ∧ f v = foldr (λ v m, Nat.max (f v) m) 0 l.
Proof.
  induction l as [|x l IH]; [done|]. intros _.
  destruct l as [|y l].
  - exists x. split; [left|]. cbn. lia.
  - destruct IH as (v & Hin & Hv); [done|].
    destruct (decide (foldr (λ v m, Nat.max (f v) m) 0 (y :: l) ≤ f x))
      as [Hle|Hgt].
    + exists x. split; [left|]. cbn in *. lia.
    + exists v. split; [by right|]. cbn in *. lia.
Qed.
End FoldMax.

Lemma occurrences_not_elem (s : list string) (w : string) :
  w ∉ s → occurrences w s = 0.
Proof.
  intros Hw. unfold occurrences.
  induction s as [|x s IH]; [done|].
  rewrite filter_cons. apply not_elem_of_cons in Hw as [Hne Hw].
  rewrite decide_False by congruence. by apply IH.
Qed.

Lemma occurrences_elem (s : list string) (w : string) :
  w ∈ s → 0 < occurrences w s.
Proof.
  unfold occurrences. induction s as [|x s IH]; [by intros ?%elem_of_nil|].
  rewrite filter_cons. destruct (decide (x = w)) as [->|Hne]; cbn; [lia|].
  intros [->|Hin]%elem_of_cons; [done|]. by apply IH.
Qed.

(** No value is more frequent than [max_count]. *)
Lemma occurrences_le_max_count (s : list string) (w : string) :
  occurrences w s ≤ max_count s.
Proof.
  destruct (decide (w ∈ s)) as [Hin|Hout].
  - apply (fold_max_upper (λ v, occurrences v s)). by apply elem_of_unique.
  - rewrite occurrences_not_elem by done. lia.
Qed.

(** The values [mode] returns are the values of the column whose
    frequency is [max_count]. *)
Lemma elem_of_mode (s : list string) (v : string) :
  v ∈ mode s ↔ v ∈ s ∧ occurrences v s = max_count s.
Proof.
  unfold mode. rewrite merge_sort_Permutation.
  rewrite list_elem_of_filter, elem_of_unique. tauto.
Qed.

Lemma mode_nonempty (s : list string) : s ≠ [] → mode s ≠ [].
Proof.
  intros Hs.
  destruct (fold_max_attained (λ v, occurrences v s) (unique s))
    as (v & Hin & Hv).
  { intros Hnil. by apply Hs, unique_nil_inv. }
  assert (v ∈ mode s) as Hmode.
  { apply elem_of_mode. split; [by apply elem_of_unique|done]. }
  intros Hnil. rewrite Hnil in Hmode. by apply elem_of_nil in Hmode.
Qed.

(** On a non-empty column [mode()[0]] does not raise. *)
Lemma mode0_nonempty (s : list string) : s ≠ [] → ∃ v, mode0 s = Ok v.
Proof.
  intros Hs. unfold mode0.
  destruct (mode s) as [|v rest] eqn:Hm; [|by eexists].
  by apply mode_nonempty in Hm.
Qed.

(** [mode()[0]] is a most frequent value of the column and the least of
    them in the lexicographic order. *)
Lemma mode0_Ok_inv (s : list string) (v : string) :
  mode0 s = Ok v →
  v ∈ s ∧
  (∀ w, occurrences w s ≤ occurrences v s) ∧
  (∀ w, w ∈ s → occurrences w s = occurrences v s → (v ≤ w)%string).
Proof.
  unfold mode0. destruct (mode s) as [|v' rest] eqn:Hm; [done|].
  intros [= ->].
  assert (v ∈ mode s) as Hv by (rewrite Hm; left).
  apply elem_of_mode in Hv as [Hin Hmax].
  split; [done|]. split.
  - intros w. rewrite Hmax. apply occurrences_le_max_count.
  - intros w Hw Hocc.
    assert (w ∈ mode s) as Hwm.
    { apply elem_of_mode. split; [done|congruence]. }
    pose proof (StronglySorted_merge_sort String.le
      (filter (λ v, occurrences v s = max_count s) (unique s))) as Hsorted.
    fold (mode s) in Hsorted. rewrite Hm in Hsorted, Hwm.
    apply StronglySorted_inv in Hsorted as [_ Hall].
    apply elem_of_cons in Hwm as [->|Hrest]; [done|].
    by eapply Forall_forall in Hall.
Qed.

(** C3, as stated, on a column where "Sea" and "Air" are tied and "Sea"
    comes first in row order: the first tied value in row order is "Sea",
    but [mode()[0]] is "Air". *)
Lemma mode0_tie_is_not_row_order_first :
  occurrences "Sea" ["Sea"; "Air"] = occurrences "Air" ["Sea"; "Air"] ∧
  first_most_frequent ["Sea"; "Air"] = Some "Sea" ∧
  mode0 ["Sea"; "Air"] = Ok "Air" ∧
  mode0 ["Sea"; "Air"] ≠ Ok "Sea".
Proof. repeat split; try reflexivity. vm_compute. discriminate. Qed.

(** C3 (amended): on every non-empty column [mode()[0]] returns one value,
    which is a value of the column of maximal frequency, and when several
    values share the maximal frequency it is the least of them in the
    column's sort order (lexicographic for strings), wherever they stand
    in the rows. *)
Theorem mode0_least_most_frequent (s : list string) :
  s ≠ [] →
  ∃ v, mode0 s = Ok v ∧
       v ∈ s ∧
       (∀ w, occurrences w s ≤ occurrences v s) ∧
       (∀ w, w ∈ s → occurrences w s = occurrences v s → (v ≤ w)%string).
Proof.
  intros Hs. destruct (mode0_nonempty s Hs) as [v Hv].
  exists v. split; [done|]. by apply mode0_Ok_inv.
Qed.

Lemma mode0_least_most_frequent_witness :
  ∃ v, mode0 ["Sea"; "Land"; "Air"; "Sea"; "Air"] = Ok v ∧
       v ∈ ["Sea"; "Land"; "Air"; "Sea"; "Air"] ∧
       (∀ w, occurrences w ["Sea"; "Land"; "Air"; "Sea"; "Air"]
             ≤ occurrences v ["Sea"; "Land"; "Air"; "Sea"; "Air"]) ∧
       (∀ w, w ∈ ["Sea"; "Land"; "Air"; "Sea"; "Air"] →
             occurrences w ["Sea"; "Land"; "Air"; "Sea"; "Air"]
             = occurrences v ["Sea"; "Land"; "Air"; "Sea"; "Air"] →
             (v ≤ w)%string).
Proof.
  apply (mode0_least_most_frequent ["Sea"; "Land"; "Air"; "Sea"; "Air"]).
  discriminate.
Defined.

Example mode0_shipping_tie :
  mode0 ["Sea"; "Land"; "Air"; "Sea"; "Air"] = Ok "Air".
Proof. reflexivity. Qed.

Example mode0_empty : mode0 [] = Err KeyError.
Proof. reflexivity. Qed.

(** ** Summary statistics *)

Lemma describe_nil : describe [] = nan_row.
Proof. reflexivity. Qed.

(** Missing cells are left out of the count and of the statistics. *)
Example describe_skips_missing :
  describe [Some 2%Q; None; Some 4%Q]
  = mkDescribe 2 (Num 3) (Sqrt 2) (Num 2) (Num (5 # 2)) (Num 3)
      (Num (7 # 2)) (Num 4).
Proof. reflexivity. Qed.

Lemma summary_df_nil :
  summary_df []
  = [("Quantity", nan_row); ("Value", nan_row); ("Weight", nan_row)].
Proof. reflexivity. Qed.

Example describe_quantities :
  describe (column Quantity four_rows)
  = mkDescribe 4 (Num (15 # 4)) (Sqrt (115 # 12)) (Num 1)
      (Num (7 # 4)) (Num 3) (Num 5) (Num 8).
Proof. reflexivity. Qed.

(** ** The Data Preview page *)

(** Lines 38-45 never raise. *)
Lemma filtered_df_Ok (D : DataFrame) (cs : list string) (p : string) :
  ∃ out, filtered_df D cs p = Ok out.
Proof.
  destruct (decide (cs ≠ [] ∨ p ≠ "All")) as [Hact|Hno].
  - eexists. by apply filtered_df_active.
  - destruct cs as [|c cs]; [|exfalso; apply Hno; by left].
    destruct (decide (p = "All")) as [->|Hp]; [|exfalso; apply Hno; by right].
    eexists. apply filtered_df_inactive.
Qed.

(** A run in which the save button is not pressed completes, touches no
    file and shows the filtered frame with its summary table. *)
Lemma data_preview_without_save (sample_df : DataFrame) (ui : widgets)
    (w : world) (filtered : DataFrame) :
  filtered_df sample_df (ui_countries ui) (ui_product ui) = Ok filtered →
  ui_save ui = false →
  ∃ sc, run (data_preview sample_df ui) w
        = (Completed, {| sys := w; screen := sc |}) ∧
        ShowDataframe filtered ∈ sc ∧
        SummaryTable (summary_df filtered) ∈ sc ∧
        (∀ t, Success t ∉ sc).
Proof.
  intros Hf Hsave. unfold data_preview. step_script. rewrite Hf, Hsave.
  step_script. destruct w. eexists. split; [reflexivity|].
  split; [|split].
  - do 4 right. left.
  - do 6 right. left.
  - intros t Hin. repeat (apply elem_of_cons in Hin as [Hin|Hin]; [done|]).
    by apply elem_of_nil in Hin.
Qed.

Lemma fault_at_None (path : string) (fs : list (string * write_fault)) :
  fault_at path fs = None ↔ path ∉ fs.*1.
Proof.
  induction fs as [|[p fault] fs IH]; cbn.
  - split; [intros _; apply not_elem_of_nil|done].
  - rewrite not_elem_of_cons. case_bool_decide as Hp.
    + split; [done|]. intros [Hne _]. by destruct Hne.
    + rewrite IH. split; [by split|by intros [_ ?]].
Qed.

Lemma fault_at_read_only (path : string) (w : world) :
  path ∈ read_only w → ∃ fault, fault_at path (faults w) = Some fault.
Proof.
  intros Hin. destruct (fault_at path (faults w)) as [fault|] eqn:Hf.
  - by exists fault.
  - by apply fault_at_None in Hf.
Qed.

(** A run in which the save button is pressed and the export goes
    through. *)
Lemma data_preview_save_ok (sample_df : DataFrame) (ui : widgets)
    (w : world) (filtered : DataFrame) :
  filtered_df sample_df (ui_countries ui) (ui_product ui) = Ok filtered →
  ui_save ui = true →
  "Filtered_Data.csv" ∉ read_only w →
  ∃ sc, run (data_preview sample_df ui) w
        = (Completed,
           {| sys := set_file "Filtered_Data.csv" filtered
                       (log_io (OpenWrite "Filtered_Data.csv") w);
              screen := sc |}) ∧
        SummaryTable (summary_df filtered) ∈ sc.
Proof.
  intros Hf Hsave Hrw. apply fault_at_None in Hrw.
  unfold data_preview. step_script. rewrite Hf, Hsave.
  unfold to_csv. step_script. rewrite Hrw.
  eexists. split; [reflexivity|]. do 6 right. left.
Qed.

(** The file store a failed export leaves behind. *)
Lemma data_preview_save_fails (sample_df : DataFrame) (ui : widgets)
    (w : world) (filtered : DataFrame) (fault : write_fault) :
  filtered_df sample_df (ui_countries ui) (ui_product ui) = Ok filtered →
  ui_save ui = true →
  fault_at "Filtered_Data.csv" (faults w) = Some fault →
  ∃ sc, run (data_preview sample_df ui) w
        = (Uncaught (fault_exn fault),
           {| sys := match fault with
                     | OpenDenied => log_io (OpenWrite "Filtered_Data.csv") w
                     | WriteBroken remains =>
                         set_file "Filtered_Data.csv" remains
                           (log_io (OpenWrite "Filtered_Data.csv") w)
                     end;
              screen := sc |}) ∧
        run (data_preview sample_df (with_save false ui)) w
        = (Completed, {| sys := w; screen := sc |}) ∧
        SummaryTable (summary_df filtered) ∈ sc ∧
        (∀ t, Success t ∉ sc).
Proof.
  intros Hf Hsave Hfault. unfold data_preview. step_script.
  rewrite Hf, Hsave.
  unfold to_csv. step_script. rewrite Hfault.
  destruct w. eexists. split; [by destruct fault|].
  split; [reflexivity|]. split.
  - do 6 right. left.
  - intros t Hin. repeat (apply elem_of_cons in Hin as [Hin|Hin]; [done|]).
    by apply elem_of_nil in Hin.
Qed.

(** C4: when the filter leaves no row, [describe] over Quantity, Value
    and Weight yields count 0 and the NaN marker for every other statistic
    of every column, and the page renders that table instead of raising:
    the run completes unless the export that follows it fails. *)
Theorem describe_empty_subsequence (sample_df : DataFrame) (ui : widgets)
    (w : world) :
  filtered_df sample_df (ui_countries ui) (ui_product ui) = Ok [] →
  summary_df []
  = [ ("Quantity", mkDescribe 0 NaN NaN NaN NaN NaN NaN NaN);
      ("Value", mkDescribe 0 NaN NaN NaN NaN NaN NaN NaN);
      ("Weight", mkDescribe 0 NaN NaN NaN NaN NaN NaN NaN) ] ∧
  ∃ o s, run (data_preview sample_df ui) w = (o, s) ∧
         SummaryTable (summary_df []) ∈ screen s ∧
         (ui_save ui = false ∨ "Filtered_Data.csv" ∉ read_only w →
          o = Completed).
Proof.
  intros Hf. split; [reflexivity|].
  destruct (ui_save ui) eqn:Hsave.
  - destruct (decide ("Filtered_Data.csv" ∈ read_only w)) as [Hro|Hrw].
    + destruct (fault_at_read_only _ w Hro) as [fault Hfault].
      destruct (data_preview_save_fails _ _ w _ fault Hf Hsave Hfault)
        as (sc & Hrun & _ & Htable & _).
      do 2 eexists. split; [exact Hrun|]. split; [exact Htable|].
      intros [?|?]; done.
    + destruct (data_preview_save_ok _ _ w _ Hf Hsave Hrw)
        as (sc & Hrun & Htable).
      do 2 eexists. split; [exact Hrun|]. split; [exact Htable|done].
  - destruct (data_preview_without_save _ _ w _ Hf Hsave)
      as (sc & Hrun & _ & Htable & _).
    do 2 eexists. split; [exact Hrun|]. split; [exact Htable|done].
Qed.

Lemma describe_empty_subsequence_witness :
  summary_df []
  = [ ("Quantity", mkDescribe 0 NaN NaN NaN NaN NaN NaN NaN);
      ("Value", mkDescribe 0 NaN NaN NaN NaN NaN NaN NaN);
      ("Weight", mkDescribe 0 NaN NaN NaN NaN NaN NaN NaN) ] ∧
  ∃ o s,
    run (data_preview four_rows
           (mkWidgets "Data Preview" ["Peru"] "Car" false "All" "All"))
        empty_world
    = (o, s) ∧
    SummaryTable (summary_df []) ∈ screen s ∧
    (false = false ∨ "Filtered_Data.csv" ∉ read_only empty_world →
     o = Completed).
Proof.
  apply (describe_empty_subsequence four_rows
           (mkWidgets "Data Preview" ["Peru"] "Car" false "All" "All")
           empty_world).
  reflexivity.
Defined.

(** C10: with no filter active on the Data Preview page, pressing the
    save button writes the ten-row default view, the first ten records of
    the sampled dataset, to [Filtered_Data.csv]; that is not the sampled
    dataset as soon as it has more than ten rows. *)
Theorem export_writes_default_view (sample_df : DataFrame) (ui : widgets)
    (w : world) :
  ui_countries ui = [] →
  ui_product ui = "All" →
  ui_save ui = true →
  "Filtered_Data.csv" ∉ read_only w →
  ∃ s, run (data_preview sample_df ui) w = (Completed, s) ∧
       files (sys s) !! "Filtered_Data.csv" = Some (take 10 sample_df) ∧
       (10 < length sample_df →
        files (sys s) !! "Filtered_Data.csv" ≠ Some sample_df).
Proof.
  intros Hcs Hp Hsave Hrw.
  assert (filtered_df sample_df (ui_countries ui) (ui_product ui)
          = Ok (take 10 sample_df)) as Hf.
  { rewrite Hcs, Hp. apply filtered_df_inactive. }
  destruct (data_preview_save_ok _ _ w _ Hf Hsave Hrw) as (sc & Hrun & _).
  eexists. split; [exact Hrun|]. cbn. rewrite lookup_insert_eq.
  split; [done|].
  intros Hlen [= Heq]. apply (f_equal length) in Heq.
  rewrite length_take in Heq. lia.
Qed.

Lemma export_writes_default_view_witness :
  ∃ s, run (data_preview (numbered_rows 11) (with_save true no_selection))
           empty_world
       = (Completed, s) ∧
       files (sys s) !! "Filtered_Data.csv" = Some (take 10 (numbered_rows 11)) ∧
       files (sys s) !! "Filtered_Data.csv" ≠ Some (numbered_rows 11).
Proof.
  destruct (export_writes_default_view (numbered_rows 11)
              (with_save true no_selection) empty_world)
    as (s & Hrun & Hfile & Hneq).
  - reflexivity.
  - reflexivity.
  - reflexivity.
  - apply not_elem_of_nil.
  - exists s. split; [exact Hrun|]. split; [exact Hfile|].
    apply Hneq. vm_compute. lia.
Defined.

(** ** The Analysis page *)

(** The run of the Analysis page once the two modes are known: it
    completes, and its metric cards are the five aggregates of the whole
    frame. *)
Lemma analysis_dashboard_cards (sample_df : DataFrame) (ui : widgets)
    (w : world) (shipping top_product : string) :
  mode0 (column Shipping_Method sample_df) = Ok shipping →
  mode0 (column Product sample_df) = Ok top_product →
  ∃ s, run (analysis_dashboard sample_df ui) w = (Completed, s) ∧
       sys s = w ∧
       metric_cards (screen s)
       = [ ("Total Records", MInt (length sample_df));
           ("Unique Products", MInt (nunique (column Product sample_df)));
           ("Unique Countries", MInt (nunique (column Country sample_df)));
           ("Most Used Shipping Method", MStr shipping);
           ("Top Product", MStr top_product) ] ∧
       Pyplot (TopCountriesBar
                 (column Country
                    (filtered_data sample_df (ui_country ui)
                       (ui_import_export ui))))
       ∈ screen s.
Proof.
  intros Hship Htop. unfold analysis_dashboard. step_script.
  rewrite Hship. step_script. rewrite Htop. step_script.
  eexists. split; [reflexivity|]. split; [done|]. split; [reflexivity|].
  cbn. do 11 right. left.
Qed.

(** C9: on the Analysis page the five metric cards (record count, unique
    products, unique countries, shipping-method mode, product mode) are the
    aggregates of the whole sampled dataset, and every choice of country
    and import/export filter yields the same five cards. *)
Theorem analysis_metrics_ignore_filters (sample_df : DataFrame)
    (ui : widgets) (w : world) :
  sample_df ≠ [] →
  ∃ shipping top_product s,
    mode0 (column Shipping_Method sample_df) = Ok shipping ∧
    mode0 (column Product sample_df) = Ok top_product ∧
    run (analysis_dashboard sample_df ui) w = (Completed, s) ∧
    metric_cards (screen s)
    = [ ("Total Records", MInt (length sample_df));
        ("Unique Products", MInt (nunique (column Product sample_df)));
        ("Unique Countries", MInt (nunique (column Country sample_df)));
        ("Most Used Shipping Method", MStr shipping);
        ("Top Product", MStr top_product) ] ∧
    ∀ ui', metric_cards (screen (run (analysis_dashboard sample_df ui') w).2)
           = metric_cards (screen s).
Proof.
  intros Hne.
  destruct (mode0_nonempty (column Shipping_Method sample_df))
    as [shipping Hship].
  { destruct sample_df; [done|discriminate]. }
  destruct (mode0_nonempty (column Product sample_df)) as [top_product Htop].
  { destruct sample_df; [done|discriminate]. }
  destruct (analysis_dashboard_cards sample_df ui w _ _ Hship Htop)
    as (s & Hrun & _ & Hcards & _).
  exists shipping, top_product, s.
  repeat split; try done.
  intros ui'.
  destruct (analysis_dashboard_cards sample_df ui' w _ _ Hship Htop)
    as (s' & Hrun' & _ & Hcards' & _).
  rewrite Hrun'. cbn. congruence.
Qed.

Lemma analysis_metrics_ignore_filters_witness :
  ∃ shipping top_product s,
    mode0 (column Shipping_Method four_rows) = Ok shipping ∧
    mode0 (column Product four_rows) = Ok top_product ∧
    run (analysis_dashboard four_rows
           (mkWidgets "Analysis Dashboard" [] "All" false "USA" "Export"))
        empty_world
    = (Completed, s) ∧
    metric_cards (screen s)
    = [ ("Total Records", MInt (length four_rows));
        ("Unique Products", MInt (nunique (column Product four_rows)));
        ("Unique Countries", MInt (nunique (column Country four_rows)));
        ("Most Used Shipping Method", MStr shipping);
        ("Top Product", MStr top_product) ] ∧
    ∀ ui', metric_cards
             (screen (run (analysis_dashboard four_rows ui') empty_world).2)
           = metric_cards (screen s).
Proof.
  apply (analysis_metrics_ignore_filters four_rows
           (mkWidgets "Analysis Dashboard" [] "All" false "USA" "Export")
           empty_world).
  discriminate.
Defined.

(** The cards on the sample rows, and the chart, which does follow the
    filters. *)
Example analysis_cards_four_rows :
  metric_cards
    (screen (run (analysis_dashboard four_rows
                    (mkWidgets "Analysis Dashboard" [] "All" false "USA" "Export"))
                 empty_world).2)
  = [ ("Total Records", MInt 4); ("Unique Products", MInt 2);
      ("Unique Countries", MInt 3);
      ("Most Used Shipping Method", MStr "Air"); ("Top Product", MStr "Car") ].
Proof. reflexivity. Qed.

Example analysis_chart_follows_filters :
  Pyplot (TopCountriesBar ["USA"])
  ∈ screen (run (analysis_dashboard four_rows
                   (mkWidgets "Analysis Dashboard" [] "All" false "USA" "Export"))
                empty_world).2 ∧
  Pyplot (TopCountriesBar ["USA"; "India"; "USA"; "Peru"])
  ∈ screen (run (analysis_dashboard four_rows
                   (mkWidgets "Analysis Dashboard" [] "All" false "All" "All"))
                empty_world).2.
Proof. split; vm_compute; do 11 right; left. Qed.

(** ** Loading the sample *)

Section Loading.
Variable permutation : Z → nat → list nat.

Lemma sample_too_large (df : DataFrame) (n : nat) (seed : Z) :
  length df < n → sample permutation df n seed = Err ValueError.
Proof. intros Hlt. unfold sample. by rewrite bool_decide_eq_true_2. Qed.

Lemma sample_fits (df : DataFrame) (n : nat) (seed : Z) :
  n ≤ length df →
  sample permutation df n seed
  = Ok (omap (λ i, df !! i) (take n (permutation seed (length df)))).
Proof.
  intros Hle. unfold sample. rewrite bool_decide_eq_false_2; [done|lia].
Qed.

(** What [load_sample] returns is decided by the content of the source
    file alone. *)
Lemma load_sample_result (s : session) :
  (load_sample permutation s).1
  = match files (sys s) !! file_path with
    | Some df => sample permutation df 3001 55054
    | None => Err FileNotFoundError
    end.
Proof.
  unfold load_sample, read_csv. step_script.
  by destruct (files (sys s) !! file_path).
Qed.

(** A failing load ends the script before anything is rendered. *)
Lemma dashboard_load_fails (ui : widgets) (w : world) (e : exn) :
  (load_sample permutation {| sys := w; screen := [] |}).1 = Err e →
  ∃ s, run (dashboard permutation ui) w = (Uncaught e, s) ∧
       screen s = [] ∧ files (sys s) = files w.
Proof.
  unfold dashboard, load_sample, read_csv. step_script.
  destruct (files w !! file_path) as [df|]; cbn.
  - intros ->. eexists. by split.
  - intros [= <-]. eexists. by split.
Qed.
End Loading.

(** C5, as stated, on a source file of 2000 rows: drawing 3001 rows
    fails, with the [ValueError] of pandas and not with an
    [InsufficientDataError]. *)
Lemma oversized_sample_is_a_ValueError :
  length (numbered_rows 2000) = 2000 ∧
  sample identity_permutation (numbered_rows 2000) 3001 55054
  = Err ValueError ∧
  (run (dashboard identity_permutation no_selection) (world_with_rows 2000)).1
  = Uncaught ValueError ∧
  ValueError ≠ Raise "InsufficientDataError".
Proof.
  split; [by vm_compute|]. split; [by vm_compute|].
  split; [by vm_compute|]. discriminate.
Qed.

(** C5 (amended): drawing a sample larger than the source file's row
    count (for example 3001 rows from a 2000-row file) fails with the
    [ValueError] raised by pandas; in the script, which draws 3001 rows,
    that exception is uncaught and ends the run before anything is
    rendered. *)
Theorem oversized_sample_raises_ValueError (permutation : Z → nat → list nat)
    (df : DataFrame) (n : nat) (seed : Z) (w : world) (ui : widgets) :
  length df < n →
  sample permutation df n seed = Err ValueError ∧
  (files w !! file_path = Some df → n = 3001 →
   ∃ s, run (dashboard permutation ui) w = (Uncaught ValueError, s) ∧
        screen s = []).
Proof.
  intros Hlt. split; [by apply sample_too_large|].
  intros Hfile ->.
  destruct (dashboard_load_fails permutation ui w ValueError)
    as (s & Hrun & Hscreen & _).
  { rewrite load_sample_result. cbn. rewrite Hfile.
    by apply sample_too_large. }
  by exists s.
Qed.

Lemma oversized_sample_raises_ValueError_witness :
  sample identity_permutation (numbered_rows 2000) 3001 55054
  = Err ValueError ∧
  ∃ s, run (dashboard identity_permutation no_selection) (world_with_rows 2000)
       = (Uncaught ValueError, s) ∧
       screen s = [].
Proof.
  destruct (oversized_sample_raises_ValueError identity_permutation
              (numbered_rows 2000) 3001 55054 (world_with_rows 2000)
              no_selection)
    as [Hsample Hrun].
  - vm_compute. lia.
  - split; [exact Hsample|]. apply Hrun; reflexivity.
Defined.

(** A sample size that the file can serve is served. *)
Example sample_three_of_four :
  column Quantity
    <$> match sample (λ _ _, [2; 0; 3; 1]) four_rows 3 55054 with
        | Ok out => Some out
        | Err _ => None
        end
  = Some [Some 4%Q; Some 1%Q; Some 8%Q].
Proof. reflexivity. Qed.

(** The seeded draw ignores the state of the run. *)
Lemma df_sample_seeded (permutation : Z → nat → list nat) (df : DataFrame)
    (n : nat) (seed : Z) (s : session) :
  df_sample permutation df n (Some seed) s = (sample permutation df n seed, s).
Proof. reflexivity. Qed.

(** A draw without a seed follows the generator of the process: on the
    same four rows two processes draw different samples. *)
Example unseeded_sample_differs :
  (df_sample identity_permutation four_rows 2 None
     {| sys := world_with_rows 4; screen := [] |}).1
  ≠ (df_sample identity_permutation four_rows 2 None
       {| sys := other_world_with_rows 4; screen := [] |}).1.
Proof.
  intros Heq.
  apply (f_equal (λ r, match r with
                       | Ok out => column Country out
                       | Err _ => []
                       end)) in Heq.
  vm_compute in Heq. discriminate Heq.
Qed.

(** C6: sampling is deterministic: two loads that find the same source
    file yield the same sampled dataset, the same rows in the same order
    (or fail alike), whatever else differs between the two runs: the
    state of numpy's process-wide generator, the other files, the faults
    of the file system, the trace and the page.  The script's draw is
    seeded ([random_state=55054]); for every frame, size and seed a
    seeded draw is the same in both runs. *)
Theorem load_sample_deterministic (permutation : Z → nat → list nat)
    (s1 s2 : session) :
  files (sys s1) !! file_path = files (sys s2) !! file_path →
  (load_sample permutation s1).1 = (load_sample permutation s2).1 ∧
  ∀ df n seed,
    (df_sample permutation df n (Some seed) s1).1
    = (df_sample permutation df n (Some seed) s2).1.
Proof.
  intros Hsame. split; [|done].
  rewrite !load_sample_result. by rewrite Hsame.
Qed.

Lemma load_sample_deterministic_witness :
  (load_sample identity_permutation
     {| sys := world_with_rows 3001; screen := [] |}).1
  = (load_sample identity_permutation
       {| sys := other_world_with_rows 3001;
          screen := [Title "Welcome to the Imports/Exports Dashboard"] |}).1 ∧
  ∀ df n seed,
    (df_sample identity_permutation df n (Some seed)
       {| sys := world_with_rows 3001; screen := [] |}).1
    = (df_sample identity_permutation df n (Some seed)
         {| sys := other_world_with_rows 3001;
            screen := [Title "Welcome to the Imports/Exports Dashboard"] |}).1.
Proof.
  apply (load_sample_deterministic identity_permutation
           {| sys := world_with_rows 3001; screen := [] |}
           {| sys := other_world_with_rows 3001;
              screen := [Title "Welcome to the Imports/Exports Dashboard"] |}).
  reflexivity.
Defined.

(** A file of 3001 rows is loaded whole, in the order the generator
    gives. *)
Example load_sample_full_file :
  match (load_sample identity_permutation
           {| sys := world_with_rows 3001; screen := [] |}).1 with
  | Ok out => length out
  | Err _ => 0
  end = 3001.
Proof. vm_compute. reflexivity. Qed.

(** * Further properties of the script *)

(** ** Distinct values *)

Lemma unique_NoDup (s : list string) : NoDup (unique s).
Proof.
  induction s as [|x s IH]; [constructor|].
  cbn [unique]. apply NoDup_cons. split.
  - rewrite list_elem_of_filter. intros [Hne _]. by apply Hne.
  - by apply NoDup_filter.
Qed.

Lemma unique_sublist (s : list string) : unique s `sublist_of` s.
Proof.
  induction s as [|x s IH]; [done|].
  cbn [unique]. apply sublist_skip.
  etrans; [apply sublist_filter|done].
Qed.

(** X1: [unique()] lists every value of the column once, in an order
    taken from the rows, and [nunique()] is the number of distinct values
    of the column. *)
Theorem nunique_counts_distinct_values (s : list string) :
  NoDup (unique s) ∧
  (∀ v, v ∈ unique s ↔ v ∈ s) ∧
  unique s `sublist_of` s ∧
  nunique s = size (list_to_set s : gset string).
Proof.
  split; [apply unique_NoDup|]. split; [apply elem_of_unique|].
  split; [apply unique_sublist|].
  unfold nunique. rewrite <- (size_list_to_set (C:=gset string)) by apply unique_NoDup.
  f_equal. apply set_eq. intros v.
  by rewrite !elem_of_list_to_set, elem_of_unique.
Qed.

(** ** The mode and the order of the rows *)

Lemma occurrences_Permutation (v : string) (s s' : list string) :
  s ≡ₚ s' → occurrences v s = occurrences v s'.
Proof. intros Hp. unfold occurrences. by rewrite Hp. Qed.

Lemma unique_Permutation (s s' : list string) :
  s ≡ₚ s' → unique s ≡ₚ unique s'.
Proof.
  intros Hp. apply NoDup_Permutation; [apply unique_NoDup..|].
  intros v. by rewrite !elem_of_unique, Hp.
Qed.

Lemma max_count_attained (s : list string) :
  s ≠ [] → ∃ v, v ∈ s ∧ occurrences v s = max_count s.
Proof.
  intros Hs.
  destruct (fold_max_attained (λ v, occurrences v s) (unique s))
    as (v & Hin & Hv).
  { intros Hnil. by apply Hs, unique_nil_inv. }
  exists v. split; [by apply elem_of_unique|done].
Qed.

Lemma max_count_Permutation_le (s s' : list string) :
  s ≡ₚ s' → max_count s ≤ max_count s'.
Proof.
  intros Hp. destruct s as [|x s].
  - apply Permutation_nil_l in Hp as ->. done.
  - destruct (max_count_attained (x :: s)) as (v & _ & <-); [done|].
    rewrite (occurrences_Permutation v _ _ Hp).
    apply occurrences_le_max_count.
Qed.

Lemma max_count_Permutation (s s' : list string) :
  s ≡ₚ s' → max_count s = max_count s'.
Proof.
  intros Hp. apply Nat.le_antisymm; by apply max_count_Permutation_le.
Qed.

Lemma mode_Permutation (s s' : list string) : s ≡ₚ s' → mode s = mode s'.
Proof.
  intros Hp. apply (Sorted_unique String.le).
  - apply Sorted_merge_sort; apply _.
  - apply Sorted_merge_sort; apply _.
  - unfold mode. rewrite !merge_sort_Permutation.
    rewrite (unique_Permutation _ _ Hp).
    erewrite list_filter_iff; [done|].
    intros v. cbn.
    by rewrite (occurrences_Permutation v _ _ Hp), (max_count_Permutation _ _ Hp).
Qed.

(** X2: the mode shown on a metric card depends on the values of the
    column only, not on the order of the rows: reordering the rows (as a
    different shuffle of the sample would) leaves [mode()[0]] unchanged. *)
Theorem mode0_row_order_independent (s s' : list string) :
  s ≡ₚ s' → mode0 s = mode0 s'.
Proof. intros Hp. unfold mode0. by rewrite (mode_Permutation _ _ Hp). Qed.

Lemma mode0_row_order_independent_witness :
  mode0 ["Sea"; "Air"; "Land"; "Air"; "Sea"]
  = mode0 ["Air"; "Land"; "Sea"; "Sea"; "Air"].
Proof.
  apply (mode0_row_order_independent
           ["Sea"; "Air"; "Land"; "Air"; "Sea"]
           ["Air"; "Land"; "Sea"; "Sea"; "Air"]).
  by apply (bool_decide_unpack _).
Defined.

(** ** How the filters compose *)

Lemma filter_sublist_impl {A} (P Q : A → Prop)
    `{!∀ x, Decision (P x), !∀ x, Decision (Q x)} (l : list A) :
  (∀ x, P x → Q x) → filter P l `sublist_of` filter Q l.
Proof.
  intros HPQ. induction l as [|x l IH]; [done|].
  rewrite !filter_cons.
  destruct (decide (P x)) as [HP|HP].
  - rewrite decide_True by auto. by apply sublist_skip.
  - destruct (decide (Q x)); [by apply sublist_cons|done].
Qed.

Lemma filter_nonempty {A} (P : A → Prop) `{!∀ x, Decision (P x)}
    (l : list A) (x : A) :
  x ∈ l → P x → filter P l ≠ [].
Proof.
  intros Hin HP Hnil.
  assert (x ∈ filter P l) as Hx by (by apply list_elem_of_filter).
  rewrite Hnil in Hx. by apply elem_of_nil in Hx.
Qed.

(** X3: on the Analysis page the two filters can be applied one after the
    other in either order, and applying the same selection to its own
    result changes nothing. *)
Theorem filtered_data_composes (D : DataFrame) (c ie : string) :
  filtered_data (filtered_data D c "All") "All" ie = filtered_data D c ie ∧
  filtered_data (filtered_data D "All" ie) c "All" = filtered_data D c ie ∧
  filtered_data (filtered_data D c ie) c ie = filtered_data D c ie.
Proof.
  rewrite !filtered_data_exact, !list_filter_filter.
  repeat split; apply list_filter_iff; intros r; unfold satisfies;
    intuition (subst; congruence || done).
Qed.

(** X4: on the Data Preview page, filtering by countries and product at
    once is filtering by one and then by the other, in either order. *)
Theorem filtered_df_conjunction (D : DataFrame) (cs : list string)
    (p : string) :
  cs ≠ [] → p ≠ "All" →
  ∃ by_country by_product,
    filtered_df D cs "All" = Ok by_country ∧
    filtered_df D [] p = Ok by_product ∧
    filtered_df by_country [] p = filtered_df D cs p ∧
    filtered_df by_product cs "All" = filtered_df D cs p.
Proof.
  intros Hcs Hp.
  exists (filter (satisfies cs "All" "All") D),
         (filter (satisfies [] p "All") D).
  rewrite !filtered_df_active by auto.
  repeat split; f_equal; rewrite list_filter_filter;
    apply list_filter_iff; intros r; unfold satisfies;
    intuition (subst; congruence || done).
Qed.

Lemma filtered_df_conjunction_witness :
  ∃ by_country by_product,
    filtered_df four_rows ["USA"; "India"] "All" = Ok by_country ∧
    filtered_df four_rows [] "Car" = Ok by_product ∧
    filtered_df by_country [] "Car" = filtered_df four_rows ["USA"; "India"] "Car" ∧
    filtered_df by_product ["USA"; "India"] "All"
    = filtered_df four_rows ["USA"; "India"] "Car".
Proof.
  apply (filtered_df_conjunction four_rows ["USA"; "India"] "Car");
    discriminate.
Defined.

(** X5: a single country selected on the Data Preview page (product
    "All") shows the rows the Analysis page keeps for that country
    (import/export "All"), provided the country is not itself called
    "All", which the Analysis page reads as no selection. *)
Theorem single_country_pages_agree (D : DataFrame) (c : string) :
  c ≠ "All" →
  filtered_df D [c] "All" = Ok (filtered_data D c "All").
Proof.
  intros Hc. rewrite filtered_df_active by (left; done).
  rewrite filtered_data_exact. f_equal.
  apply list_filter_iff. intros r. unfold satisfies, country_set_of.
  by rewrite bool_decide_eq_false_2.
Qed.

Lemma single_country_pages_agree_witness :
  filtered_df four_rows ["USA"] "All" = Ok (filtered_data four_rows "USA" "All").
Proof. apply (single_country_pages_agree four_rows "USA"). discriminate. Defined.

(** X6: when only countries are selected on the Data Preview page and
    they are taken from the options the selector offers, every selected
    country has a row in the table; in particular the table is not
    empty. *)
Theorem offered_countries_are_shown (D : DataFrame) (cs : list string) :
  cs ≠ [] →
  cs ⊆ unique (column Country D) →
  ∃ out, filtered_df D cs "All" = Ok out ∧
         out ≠ [] ∧
         ∀ c, c ∈ cs → ∃ r, r ∈ out ∧ Country r = c.
Proof.
  intros Hcs Hsub.
  exists (filter (satisfies cs "All" "All") D).
  split; [apply filtered_df_active; by left|].
  assert (∀ c, c ∈ cs →
            ∃ r, r ∈ filter (satisfies cs "All" "All") D ∧ Country r = c)
    as Hshown.
  { intros c Hc. specialize (Hsub c Hc).
    rewrite elem_of_unique in Hsub. unfold column in Hsub.
    apply list_elem_of_fmap in Hsub as (r & -> & Hr).
    exists r. split; [|done].
    apply list_elem_of_filter. split; [|done].
    unfold satisfies. intuition. }
  split; [|done].
  destruct cs as [|c cs]; [done|].
  destruct (Hshown c) as (r & Hr & _); [left|].
  intros Hnil. rewrite Hnil in Hr. by apply elem_of_nil in Hr.
Qed.

Lemma offered_countries_are_shown_witness :
  ∃ out, filtered_df four_rows ["Peru"; "USA"] "All" = Ok out ∧
         out ≠ [] ∧
         ∀ c, c ∈ ["Peru"; "USA"] → ∃ r, r ∈ out ∧ Country r = c.
Proof.
  apply (offered_countries_are_shown four_rows ["Peru"; "USA"]).
  - discriminate.
  - by apply (bool_decide_unpack _).
Defined.

(** X7: when only a product is selected on the Data Preview page and it
    is one of the products the selector offers, the table is not empty and
    holds rows of that product only. *)
Theorem offered_product_is_shown (D : DataFrame) (p : string) :
  p ≠ "All" →
  p ∈ unique (column Product D) →
  ∃ out, filtered_df D [] p = Ok out ∧
         out ≠ [] ∧
         ∀ r, r ∈ out → Product r = p.
Proof.
  intros Hp Hin.
  exists (filter (satisfies [] p "All") D).
  split; [apply filtered_df_active; by right|].
  rewrite elem_of_unique in Hin. unfold column in Hin.
  apply list_elem_of_fmap in Hin as (r & -> & Hr).
  split.
  - apply (filter_nonempty _ _ r); [done|]. unfold satisfies. intuition.
  - intros r' [Hsat _]%list_elem_of_filter. unfold satisfies in Hsat.
    intuition.
Qed.

Lemma offered_product_is_shown_witness :
  ∃ out, filtered_df four_rows [] "Car" = Ok out ∧
         out ≠ [] ∧
         ∀ r, r ∈ out → Product r = "Car".
Proof.
  apply (offered_product_is_shown four_rows "Car").
  - discriminate.
  - by apply (bool_decide_unpack _).
Defined.

(** X8: on the Data Preview page, adding countries to a non-empty
    selection only adds rows: the table of the smaller selection is a
    subsequence of the table of the larger one. *)
Theorem more_countries_more_rows (D : DataFrame) (cs more : list string)
    (p : string) :
  cs ≠ [] →
  ∃ fewer_rows more_rows,
    filtered_df D cs p = Ok fewer_rows ∧
    filtered_df D (cs ++ more) p = Ok more_rows ∧
    fewer_rows `sublist_of` more_rows.
Proof.
  intros Hcs.
  exists (filter (satisfies cs p "All") D),
         (filter (satisfies (cs ++ more) p "All") D).
  split; [apply filtered_df_active; by left|].
  split.
  - apply filtered_df_active. left. by destruct cs.
  - apply filter_sublist_impl. intros r. unfold satisfies.
    rewrite elem_of_app. intuition.
Qed.

Lemma more_countries_more_rows_witness :
  ∃ fewer_rows more_rows,
    filtered_df four_rows ["India"] "Car" = Ok fewer_rows ∧
    filtered_df four_rows (["India"] ++ ["USA"]) "Car" = Ok more_rows ∧
    fewer_rows `sublist_of` more_rows.
Proof.
  apply (more_countries_more_rows four_rows ["India"] ["USA"] "Car").
  discriminate.
Defined.

(** ** How the pages end *)

(** X9: the Data Preview page never fails in its filter or its summary
    (the guard of line 38 keeps the scalar [True] from reaching
    [sample_df[...]]); a run of the page ends in an exception only when
    the save button is pressed and the export fails, with the
    [PermissionError] of the open when the file cannot be opened for
    writing and with the [OSError] of the write when the write breaks
    off. *)
Theorem data_preview_fails_only_on_export (sample_df : DataFrame)
    (ui : widgets) (w : world) :
  ((run (data_preview sample_df ui) w).1 = Completed ∧
   (ui_save ui = false ∨ fault_at "Filtered_Data.csv" (faults w) = None)) ∨
  ((run (data_preview sample_df ui) w).1 = Uncaught PermissionError ∧
   ui_save ui = true ∧
   fault_at "Filtered_Data.csv" (faults w) = Some OpenDenied) ∨
  (∃ remains,
     (run (data_preview sample_df ui) w).1 = Uncaught OSError ∧
     ui_save ui = true ∧
     fault_at "Filtered_Data.csv" (faults w) = Some (WriteBroken remains)).
Proof.
  destruct (filtered_df_Ok sample_df (ui_countries ui) (ui_product ui))
    as [filtered Hf].
  destruct (ui_save ui) eqn:Hsave.
  - destruct (fault_at "Filtered_Data.csv" (faults w)) as [fault|] eqn:Hfault.
    + destruct (data_preview_save_fails _ _ w _ fault Hf Hsave Hfault)
        as (sc & -> & _).
      right. destruct fault as [|remains]; [left|right; exists remains];
        by cbn.
    + destruct (data_preview_save_ok _ _ w _ Hf Hsave) as (sc & -> & _).
      { by apply fault_at_None. }
      left. cbn. auto.
  - destruct (data_preview_without_save _ _ w _ Hf Hsave)
      as (sc & -> & _). left. cbn. auto.
Qed.

(** X10: the Analysis page completes exactly when the frame has rows.  On
    a frame without rows the record count and the two unique counts are
    rendered, as zeros, and the first [mode()[0]] then raises
    [KeyError]. *)
Theorem analysis_dashboard_needs_rows (sample_df : DataFrame) (ui : widgets)
    (w : world) :
  ((run (analysis_dashboard sample_df ui) w).1 = Completed ↔ sample_df ≠ []) ∧
  (sample_df = [] →
   run (analysis_dashboard sample_df ui) w
   = (Uncaught KeyError,
      {| sys := w;
         screen := [ Title "📊 Comprehensive Analysis Dashboard";
                     Metric "Total Records" (MInt 0);
                     Metric "Unique Products" (MInt 0);
                     Metric "Unique Countries" (MInt 0) ] |})).
Proof.
  assert (sample_df = [] →
          run (analysis_dashboard sample_df ui) w
          = (Uncaught KeyError,
             {| sys := w;
                screen := [ Title "📊 Comprehensive Analysis Dashboard";
                            Metric "Total Records" (MInt 0);
                            Metric "Unique Products" (MInt 0);
                            Metric "Unique Countries" (MInt 0) ] |}))
    as Hempty by (by intros ->).
  split; [|done]. split.
  - intros Hdone ->. by rewrite Hempty in Hdone.
  - intros Hne.
    destruct (mode0_nonempty (column Shipping_Method sample_df))
      as [shipping Hship].
    { destruct sample_df; [done|discriminate]. }
    destruct (mode0_nonempty (column Product sample_df))
      as [top_product Htop].
    { destruct sample_df; [done|discriminate]. }
    destruct (analysis_dashboard_cards sample_df ui w _ _ Hship Htop)
      as (s & -> & _).
    done.
Qed.

(** The pages other than a saving Data Preview leave the file store and
    its trace alone, however they end. *)
Lemma analysis_dashboard_sys (sample_df : DataFrame) (ui : widgets)
    (s : session) :
  sys (analysis_dashboard sample_df ui s).2 = sys s.
Proof.
  unfold analysis_dashboard. step_script.
  destruct (mode0 (column Shipping_Method sample_df)); [|done].
  step_script.
  by destruct (mode0 (column Product sample_df)).
Qed.

Lemma data_preview_sys (sample_df : DataFrame) (ui : widgets) (s : session) :
  ui_save ui = false → sys (data_preview sample_df ui s).2 = sys s.
Proof.
  intros Hsave. unfold data_preview. step_script.
  destruct (filtered_df sample_df (ui_countries ui) (ui_product ui)); [|done].
  by rewrite Hsave.
Qed.

Lemma welcome_page_sys (s : session) : sys (welcome_page s).2 = sys s.
Proof. reflexivity. Qed.

Lemma insights_page_sys (s : session) : sys (insights_page s).2 = sys s.
Proof. reflexivity. Qed.

Lemma run_session (script : St unit) (w : world) :
  (run script w).2 = (script {| sys := w; screen := [] |}).2.
Proof.
  unfold run. by destruct (script {| sys := w; screen := [] |}) as [[?|?] ?].
Qed.

(** ** Sampling without replacement *)

Lemma omap_lookup_seq {A} (l1 l2 : list A) :
  omap (λ i, (l1 ++ l2) !! i) (seq (length l1) (length l2)) = l2.
Proof.
  revert l1. induction l2 as [|x l2 IH]; intros l1; [done|].
  cbn [length seq omap list_omap].
  rewrite list_lookup_middle by done.
  f_equal. specialize (IH (l1 ++ [x])).
  rewrite <- app_assoc, length_app in IH. cbn in IH.
  by rewrite Nat.add_1_r in IH.
Qed.

Lemma omap_lookup_all {A} (l : list A) :
  omap (λ i, l !! i) (seq 0 (length l)) = l.
Proof. apply (omap_lookup_seq [] l). Qed.

Lemma omap_lookup_length {A} (l : list A) (idx : list nat) :
  Forall (λ i, i < length l) idx →
  length (omap (λ i, l !! i) idx) = length idx.
Proof.
  induction 1 as [|i idx Hi _ IH]; [done|].
  cbn [omap list_omap].
  destruct (lookup_lt_is_Some_2 l i Hi) as [x ->]. cbn. by rewrite IH.
Qed.

Section Sampling.
Variable permutation : Z → nat → list nat.

Lemma load_sample_state (s : session) :
  (load_sample permutation s).2
  = {| sys := log_io (OpenRead file_path) (sys s); screen := screen s |}.
Proof.
  unfold load_sample, read_csv. step_script.
  by destruct (files (sys s) !! file_path).
Qed.

(** The session in which the selected page starts. *)
Lemma then_emit (m : St unit) (e : element) (s : session) :
  (m ;; emit e) s
  = match m s with
    | (Ok _, s') => (Ok tt, {| sys := sys s'; screen := screen s' ++ [e] |})
    | (Err x, s') => (Err x, s')
    end.
Proof.
  unfold mbind, St_bind, emit. by destruct (m s) as [[[]|x] s'].
Qed.

(** Once the sample is loaded the script renders the navigation, hands
    over to the selected page and, when that page completes, renders the
    footer. *)
Lemma dashboard_loaded (ui : widgets) (w : world) (sample_df : DataFrame) :
  (load_sample permutation {| sys := w; screen := [] |}).1 = Ok sample_df →
  dashboard permutation ui {| sys := w; screen := [] |}
  = (selected_page sample_df ui;; emit (SidebarInfo footer))
      {| sys := log_io (OpenRead file_path) w;
         screen := [ PageConfig "Imports/Exports Dashboard" "wide";
                     SidebarTitle "Navigation";
                     SidebarSelectbox "Select Page" page_names ] |}.
Proof.
  intros Hload. unfold dashboard.
  pose proof (load_sample_state {| sys := w; screen := [] |}) as Hst.
  unfold mbind at 1. unfold St_bind at 1.
  destruct (load_sample permutation {| sys := w; screen := [] |}) as [r s0].
  cbn in Hload, Hst. by subst r s0.
Qed.

Lemma dashboard_not_loaded (ui : widgets) (w : world) (e : exn) :
  (load_sample permutation {| sys := w; screen := [] |}).1 = Err e →
  dashboard permutation ui {| sys := w; screen := [] |}
  = (Err e, {| sys := log_io (OpenRead file_path) w; screen := [] |}).
Proof.
  intros Hload. unfold dashboard.
  pose proof (load_sample_state {| sys := w; screen := [] |}) as Hst.
  unfold mbind at 1. unfold St_bind at 1.
  destruct (load_sample permutation {| sys := w; screen := [] |}) as [r s0].
  cbn in Hload, Hst. by subst r s0.
Qed.

(** With a generator that returns a shuffle of the row positions, a
    sample that fits has exactly the requested size and is drawn from
    the rows without repetition. *)
Lemma sample_valid (df : DataFrame) (n : nat) (seed : Z) :
  permutation seed (length df) ≡ₚ seq 0 (length df) →
  n ≤ length df →
  ∃ out, sample permutation df n seed = Ok out ∧
         length out = n ∧
         out ⊆+ df ∧
         (n = length df → out ≡ₚ df).
Proof.
  intros Hperm Hle. rewrite sample_fits by done.
  set (idx := permutation seed (length df)) in *.
  eexists. split; [reflexivity|].
  assert (length idx = length df) as Hlen.
  { by rewrite Hperm, length_seq. }
  assert (omap (λ i, df !! i) idx ≡ₚ df) as Hall.
  { rewrite Hperm. by rewrite omap_lookup_all. }
  split; [|split].
  - rewrite omap_lookup_length.
    + rewrite length_take. lia.
    + apply Forall_forall. intros i Hi.
      apply elem_of_take in Hi as (j & Hj & _).
      apply list_elem_of_lookup_2 in Hj. rewrite Hperm in Hj.
      apply elem_of_seq in Hj. lia.
  - rewrite <- Hall. rewrite <- (take_drop n idx) at 2.
    rewrite omap_app. by apply submseteq_inserts_r.
  - intros ->. rewrite <- Hlen, firstn_all. done.
Qed.

End Sampling.

(** X11: with a generator that returns a shuffle of the row positions,
    a sample no larger than the file has exactly the requested number of
    rows, every one of them a row of the file and none drawn more often
    than the file holds it; a sample of the size of the file is the file
    reordered. *)
Theorem sample_without_replacement (permutation : Z → nat → list nat)
    (df : DataFrame) (n : nat) (seed : Z) :
  permutation seed (length df) ≡ₚ seq 0 (length df) →
  n ≤ length df →
  ∃ out, sample permutation df n seed = Ok out ∧
         length out = n ∧
         out ⊆+ df ∧
         (∀ r, r ∈ out → r ∈ df) ∧
         (n = length df → out ≡ₚ df).
Proof.
  intros Hperm Hle.
  destruct (sample_valid permutation df n seed Hperm Hle)
    as (out & Hout & Hlen & Hsub & Hall).
  exists out. repeat split; try done.
  intros r Hr. by eapply elem_of_submseteq.
Qed.

Lemma sample_without_replacement_witness :
  ∃ out, sample (λ _ _, [2; 0; 3; 1]) four_rows 3 55054 = Ok out ∧
         length out = 3 ∧
         out ⊆+ four_rows ∧
         (∀ r, r ∈ out → r ∈ four_rows) ∧
         (3 = length four_rows → out ≡ₚ four_rows).
Proof.
  apply (sample_without_replacement (λ _ _, [2; 0; 3; 1]) four_rows 3 55054).
  - by apply (bool_decide_unpack _).
  - cbn. lia.
Defined.

(** ** The whole script *)

Lemma analysis_dashboard_from (sample_df : DataFrame) (ui : widgets)
    (s : session) (shipping top_product : string) :
  mode0 (column Shipping_Method sample_df) = Ok shipping →
  mode0 (column Product sample_df) = Ok top_product →
  ∃ sc, analysis_dashboard sample_df ui s
        = (Ok tt, {| sys := sys s; screen := screen s ++ sc |}) ∧
        metric_cards sc
        = [ ("Total Records", MInt (length sample_df));
            ("Unique Products", MInt (nunique (column Product sample_df)));
            ("Unique Countries", MInt (nunique (column Country sample_df)));
            ("Most Used Shipping Method", MStr shipping);
            ("Top Product", MStr top_product) ].
Proof.
  intros Hship Htop. unfold analysis_dashboard. step_script.
  rewrite Hship. step_script. rewrite Htop. step_script.
  rewrite <- !app_assoc. cbn [app].
  eexists. split; [reflexivity|]. reflexivity.
Qed.

Lemma data_preview_shows (sample_df : DataFrame) (ui : widgets)
    (s : session) (filtered : DataFrame) :
  filtered_df sample_df (ui_countries ui) (ui_product ui) = Ok filtered →
  ShowDataframe filtered ∈ screen (data_preview sample_df ui s).2 ∧
  SummaryTable (summary_df filtered) ∈ screen (data_preview sample_df ui s).2.
Proof.
  intros Hf. unfold data_preview. step_script. rewrite Hf.
  destruct (ui_save ui); [unfold to_csv; step_script;
    destruct (fault_at "Filtered_Data.csv" (faults (sys s))) as [[|?]|]|];
    cbn -[summary_df]; rewrite <- !app_assoc; cbn [app];
    split; apply elem_of_app; right.
  all: try (do 4 right; left).
  all: do 6 right; left.
Qed.

Section WholeScript.
Variable permutation : Z → nat → list nat.

Lemma load_sample_ok (w : world) (df : DataFrame) :
  files w !! file_path = Some df →
  3001 ≤ length df →
  permutation 55054 (length df) ≡ₚ seq 0 (length df) →
  ∃ sample_df,
    (load_sample permutation {| sys := w; screen := [] |}).1 = Ok sample_df ∧
    length sample_df = 3001 ∧ sample_df ⊆+ df.
Proof.
  intros Hfile Hlen Hperm. rewrite load_sample_result. cbn. rewrite Hfile.
  destruct (sample_valid permutation df 3001 55054 Hperm Hlen)
    as (out & Hout & Hsize & Hsub & _).
  by exists out.
Qed.

End WholeScript.

Lemma selected_page_preview (sample_df : DataFrame) (ui : widgets) :
  ui_page ui = "Data Preview" →
  selected_page sample_df ui = data_preview sample_df ui.
Proof. intros Hpage. unfold selected_page. by rewrite Hpage. Qed.

Lemma selected_page_analysis (sample_df : DataFrame) (ui : widgets) :
  ui_page ui = "Analysis Dashboard" →
  selected_page sample_df ui = analysis_dashboard sample_df ui.
Proof. intros Hpage. unfold selected_page. by rewrite Hpage. Qed.

(** X12: whenever the source file has at least 3001 rows (and the
    generator returns a shuffle of the row positions), the Analysis page of
    the running dashboard completes and its first card reads 3001 records,
    whatever the filters are set to. *)
Theorem dashboard_analysis_counts_3001 (permutation : Z → nat → list nat)
    (ui : widgets) (w : world) (df : DataFrame) :
  files w !! file_path = Some df →
  3001 ≤ length df →
  permutation 55054%Z (length df) ≡ₚ seq 0 (length df) →
  ui_page ui = "Analysis Dashboard" →
  ∃ s, run (dashboard permutation ui) w = (Completed, s) ∧
       ∃ products countries shipping top_product,
         metric_cards (screen s)
         = [ ("Total Records", MInt 3001);
             ("Unique Products", MInt products);
             ("Unique Countries", MInt countries);
             ("Most Used Shipping Method", MStr shipping);
             ("Top Product", MStr top_product) ].
Proof.
  intros Hfile Hlen Hperm Hpage.
  destruct (load_sample_ok permutation w df Hfile Hlen Hperm)
    as (sample_df & Hload & Hsize & _).
  assert (sample_df ≠ []) as Hne by (intros ->; cbn in Hsize; lia).
  destruct (mode0_nonempty (column Shipping_Method sample_df))
    as [shipping Hship].
  { destruct sample_df; [done|discriminate]. }
  destruct (mode0_nonempty (column Product sample_df)) as [top_product Htop].
  { destruct sample_df; [done|discriminate]. }
  unfold run. rewrite (dashboard_loaded permutation ui w sample_df Hload).
  rewrite then_emit, selected_page_analysis by done.
  destruct (analysis_dashboard_from sample_df ui
              {| sys := log_io (OpenRead file_path) w;
                 screen := [ PageConfig "Imports/Exports Dashboard" "wide";
                             SidebarTitle "Navigation";
                             SidebarSelectbox "Select Page" page_names ] |}
              _ _ Hship Htop) as (sc & -> & Hcards).
  eexists. split; [reflexivity|].
  exists (nunique (column Product sample_df)),
         (nunique (column Country sample_df)), shipping, top_product.
  cbn [screen]. unfold metric_cards in *. rewrite !omap_app, Hcards.
  by rewrite Hsize.
Qed.

Lemma dashboard_analysis_counts_3001_witness :
  ∃ s, run (dashboard identity_permutation
              (mkWidgets "Analysis Dashboard" [] "All" false "USA" "Import"))
           (world_with_rows 3001)
       = (Completed, s) ∧
       ∃ products countries shipping top_product,
         metric_cards (screen s)
         = [ ("Total Records", MInt 3001);
             ("Unique Products", MInt products);
             ("Unique Countries", MInt countries);
             ("Most Used Shipping Method", MStr shipping);
             ("Top Product", MStr top_product) ].
Proof.
  apply (dashboard_analysis_counts_3001 identity_permutation
           (mkWidgets "Analysis Dashboard" [] "All" false "USA" "Import")
           (world_with_rows 3001) (numbered_rows 3001)).
  - reflexivity.
  - vm_compute. lia.
  - reflexivity.
  - reflexivity.
Defined.

Lemma count_le_length (cells : list (option Q)) : count cells ≤ length cells.
Proof.
  unfold count, present. induction cells as [|[x|] cells IH]; cbn; lia.
Qed.

Lemma count_all_present (cells : list (option Q)) :
  Forall is_Some cells → count cells = length cells.
Proof.
  unfold count, present. induction 1 as [|c cells [x ->] _ IH]; cbn; lia.
Qed.

Lemma summary_df_counts_le (shown : DataFrame) :
  Forall (λ row, d_count row.2 ≤ length shown) (summary_df shown).
Proof.
  unfold summary_df, describe, column.
  repeat constructor; cbn;
    (etrans; [apply count_le_length|by rewrite length_fmap]).
Qed.

Lemma summary_df_counts_full (shown : DataFrame) :
  Forall (λ r, is_Some (Quantity r) ∧ is_Some (Value r) ∧ is_Some (Weight r))
    shown →
  Forall (λ row, d_count row.2 = length shown) (summary_df shown).
Proof.
  intros Hfull. unfold summary_df, describe, column.
  repeat constructor; cbn;
    (rewrite count_all_present; [by rewrite length_fmap|]);
    apply Forall_fmap; eapply Forall_impl; [exact Hfull| |exact Hfull| |exact Hfull|];
    intros r (? & ? & ?); done.
Qed.

Lemma then_emit_screen (m : St unit) (e e' : element) (s : session) :
  e ∈ screen (m s).2 → e ∈ screen ((m ;; emit e') s).2.
Proof.
  rewrite then_emit. destruct (m s) as [[[]|x] s']; cbn; [|done].
  intros Hin. apply elem_of_app. by left.
Qed.

(** X13: whenever the source file has at least 3001 rows (and the
    generator returns a shuffle of the row positions), the Data Preview
    page with no filter set shows exactly ten rows, all of them rows of the
    source file, and the summary table under it is that of those ten rows:
    each of its three counts is the number of cells that are not empty, at
    most ten, and exactly ten when no numeric cell of the source file is
    empty. *)
Theorem dashboard_default_view_has_ten_rows
    (permutation : Z → nat → list nat) (ui : widgets) (w : world)
    (df : DataFrame) :
  files w !! file_path = Some df →
  3001 ≤ length df →
  permutation 55054%Z (length df) ≡ₚ seq 0 (length df) →
  ui_page ui = "Data Preview" →
  ui_countries ui = [] →
  ui_product ui = "All" →
  ∃ shown,
    ShowDataframe shown ∈ screen (run (dashboard permutation ui) w).2 ∧
    length shown = 10 ∧
    shown ⊆+ df ∧
    SummaryTable (summary_df shown)
    ∈ screen (run (dashboard permutation ui) w).2 ∧
    Forall (λ row, d_count row.2 ≤ 10) (summary_df shown) ∧
    (Forall (λ r, is_Some (Quantity r) ∧ is_Some (Value r) ∧
                  is_Some (Weight r)) df →
     Forall (λ row, d_count row.2 = 10) (summary_df shown)).
Proof.
  intros Hfile Hlen Hperm Hpage Hcs Hp.
  destruct (load_sample_ok permutation w df Hfile Hlen Hperm)
    as (sample_df & Hload & Hsize & Hsub).
  rewrite run_session, (dashboard_loaded permutation ui w sample_df Hload).
  rewrite selected_page_preview by done.
  assert (filtered_df sample_df (ui_countries ui) (ui_product ui)
          = Ok (take 10 sample_df)) as Hf.
  { rewrite Hcs, Hp. apply filtered_df_inactive. }
  assert (length (take 10 sample_df) = 10) as Hten.
  { rewrite length_take. lia. }
  assert (take 10 sample_df ⊆+ df) as Hrows.
  { etrans; [|exact Hsub]. apply sublist_submseteq, sublist_take. }
  exists (take 10 sample_df).
  destruct (data_preview_shows sample_df ui
              {| sys := log_io (OpenRead file_path) w;
                 screen := [ PageConfig "Imports/Exports Dashboard" "wide";
                             SidebarTitle "Navigation";
                             SidebarSelectbox "Select Page" page_names ] |}
              _ Hf) as [Hshown Hsummary].
  split; [by apply then_emit_screen|]. split; [done|]. split; [done|].
  split; [by apply then_emit_screen|]. split.
  - pose proof (summary_df_counts_le (take 10 sample_df)) as Hcounts.
    by rewrite Hten in Hcounts.
  - intros Hfull.
    pose proof (summary_df_counts_full (take 10 sample_df)) as Hcounts.
    rewrite Hten in Hcounts. apply Hcounts.
    apply Forall_forall. intros r Hr.
    rewrite Forall_forall in Hfull. apply Hfull.
    by eapply elem_of_submseteq.
Qed.

Lemma dashboard_default_view_has_ten_rows_witness :
  ∃ shown,
    ShowDataframe shown
    ∈ screen (run (dashboard identity_permutation no_selection)
                  (world_with_rows 3001)).2 ∧
    length shown = 10 ∧
    shown ⊆+ numbered_rows 3001 ∧
    SummaryTable (summary_df shown)
    ∈ screen (run (dashboard identity_permutation no_selection)
                  (world_with_rows 3001)).2 ∧
    Forall (λ row, d_count row.2 ≤ 10) (summary_df shown) ∧
    (Forall (λ r, is_Some (Quantity r) ∧ is_Some (Value r) ∧
                  is_Some (Weight r)) (numbered_rows 3001) →
     Forall (λ row, d_count row.2 = 10) (summary_df shown)).
Proof.
  apply (dashboard_default_view_has_ten_rows identity_permutation
           no_selection (world_with_rows 3001) (numbered_rows 3001)).
  - reflexivity.
  - vm_compute. lia.
  - reflexivity.
  - reflexivity.
  - reflexivity.
  - reflexivity.
Defined.

(** X14: when the source file is missing, every page, the static Welcome
    page included, ends with an uncaught [FileNotFoundError] before
    anything is rendered: the file is read before the page is chosen. *)
Theorem missing_file_fails_every_page (permutation : Z → nat → list nat)
    (ui : widgets) (w : world) :
  files w !! file_path = None →
  run (dashboard permutation ui) w
  = (Uncaught FileNotFoundError,
     {| sys := log_io (OpenRead file_path) w; screen := [] |}).
Proof.
  intros Hfile. unfold run.
  rewrite (dashboard_not_loaded permutation ui w FileNotFoundError); [done|].
  rewrite load_sample_result. cbn. by rewrite Hfile.
Qed.

Lemma missing_file_fails_every_page_witness :
  run (dashboard identity_permutation
         (mkWidgets "Welcome Page" [] "All" false "All" "All"))
      empty_world
  = (Uncaught FileNotFoundError,
     {| sys := log_io (OpenRead file_path) empty_world; screen := [] |}).
Proof.
  apply (missing_file_fails_every_page identity_permutation
           (mkWidgets "Welcome Page" [] "All" false "All" "All") empty_world).
  reflexivity.
Defined.

Lemma then_emit_sys (m : St unit) (e : element) (s : session) :
  sys ((m ;; emit e) s).2 = sys (m s).2.
Proof. rewrite then_emit. by destruct (m s) as [[[]|x] s']. Qed.

(** X15: a run of the script touches the file system once, to read the
    source file, and changes no file, unless it is a run of the Data
    Preview page with the save button pressed; this holds however the run
    ends. *)
Theorem dashboard_writes_only_on_save (permutation : Z → nat → list nat)
    (ui : widgets) (w : world) :
  ui_page ui ≠ "Data Preview" ∨ ui_save ui = false →
  sys (run (dashboard permutation ui) w).2 = log_io (OpenRead file_path) w.
Proof.
  intros Hquiet. rewrite run_session.
  destruct (load_sample permutation {| sys := w; screen := [] |}).1
    as [sample_df|e] eqn:Hload.
  - rewrite (dashboard_loaded permutation ui w sample_df Hload).
    rewrite then_emit_sys. unfold selected_page.
    repeat case_bool_decide.
    + by rewrite welcome_page_sys.
    + destruct Hquiet as [?|Hsave]; [done|]. by rewrite data_preview_sys.
    + by rewrite analysis_dashboard_sys.
    + by rewrite insights_page_sys.
    + done.
  - by rewrite (dashboard_not_loaded permutation ui w e Hload).
Qed.

Lemma dashboard_writes_only_on_save_witness :
  sys (run (dashboard identity_permutation
              (mkWidgets "Analysis Dashboard" [] "All" true "All" "Export"))
           (world_with_rows 3001)).2
  = log_io (OpenRead file_path) (world_with_rows 3001).
Proof.
  apply (dashboard_writes_only_on_save identity_permutation
           (mkWidgets "Analysis Dashboard" [] "All" true "All" "Export")
           (world_with_rows 3001)).
  left. discriminate.
Defined.

(** ** The export *)

(** X16: with a filter active on the Data Preview page and a writable
    path, pressing the save button stores exactly the rows that satisfy the
    active constraints under [Filtered_Data.csv], replacing whatever the
    file held, leaves every other file as it was, and shows the success
    notice. *)
Theorem export_writes_filtered_rows (sample_df : DataFrame) (ui : widgets)
    (w : world) :
  ui_countries ui ≠ [] ∨ ui_product ui ≠ "All" →
  ui_save ui = true →
  "Filtered_Data.csv" ∉ read_only w →
  ∃ s, run (data_preview sample_df ui) w = (Completed, s) ∧
       files (sys s) !! "Filtered_Data.csv"
       = Some (filter (satisfies (ui_countries ui) (ui_product ui) "All")
                 sample_df) ∧
       (∀ other, other ≠ "Filtered_Data.csv" →
                 files (sys s) !! other = files w !! other) ∧
       Success "Filtered data saved as 'Filtered_Data.csv'" ∈ screen s.
Proof.
  intros Hact Hsave Hrw. apply fault_at_None in Hrw.
  pose proof (filtered_df_active sample_df _ _ Hact) as Hf.
  unfold data_preview. step_script. rewrite Hf, Hsave.
  unfold to_csv. step_script. rewrite Hrw.
  eexists. split; [reflexivity|]. cbn. split; [|split].
  - by rewrite lookup_insert_eq.
  - intros other Hother. by rewrite lookup_insert_ne.
  - do 8 right. left.
Qed.

Lemma export_writes_filtered_rows_witness :
  ∃ s, run (data_preview four_rows
              (mkWidgets "Data Preview" ["USA"] "Car" true "All" "All"))
           (mkWorld {[ "Filtered_Data.csv" := four_rows ]} [] [])
       = (Completed, s) ∧
       files (sys s) !! "Filtered_Data.csv"
       = Some (filter (satisfies ["USA"] "Car" "All") four_rows) ∧
       (∀ other, other ≠ "Filtered_Data.csv" →
                 files (sys s) !! other
                 = ({[ "Filtered_Data.csv" := four_rows ]}
                      : gmap string DataFrame) !! other) ∧
       Success "Filtered data saved as 'Filtered_Data.csv'" ∈ screen s.
Proof.
  refine (export_writes_filtered_rows four_rows
            (mkWidgets "Data Preview" ["USA"] "Car" true "All" "All")
            (mkWorld {[ "Filtered_Data.csv" := four_rows ]} [] []) _ _ _).
  - left. discriminate.
  - reflexivity.
  - apply not_elem_of_nil.
Defined.

(** X17: no run of the Data Preview page, saving or not, failing or not,
    changes the source file; the next run of the script therefore loads
    the same sample. *)
Theorem export_keeps_source_file (permutation : Z → nat → list nat)
    (sample_df : DataFrame) (ui : widgets) (w : world) :
  files (sys (run (data_preview sample_df ui) w).2) !! file_path
  = files w !! file_path ∧
  (load_sample permutation (run (data_preview sample_df ui) w).2).1
  = (load_sample permutation {| sys := w; screen := [] |}).1.
Proof.
  assert (files (sys (run (data_preview sample_df ui) w).2) !! file_path
          = files w !! file_path) as Hsame.
  { destruct (filtered_df_Ok sample_df (ui_countries ui) (ui_product ui))
      as [filtered Hf].
    destruct (ui_save ui) eqn:Hsave.
    - destruct (fault_at "Filtered_Data.csv" (faults w))
        as [fault|] eqn:Hfault.
      + destruct (data_preview_save_fails _ _ w _ fault Hf Hsave Hfault)
          as (sc & -> & _).
        destruct fault; cbn; [done|]. by rewrite lookup_insert_ne.
      + destruct (data_preview_save_ok _ _ w _ Hf Hsave)
          as (sc & -> & _).
        { by apply fault_at_None. }
        cbn. by rewrite lookup_insert_ne.
    - by destruct (data_preview_without_save _ _ w _ Hf Hsave)
        as (sc & -> & _). }
  split; [done|]. rewrite !load_sample_result. cbn. by rewrite Hsame.
Qed.

(** X18: showing the table again with the same selection changes
    nothing: the Data Preview filter applied to its own output returns
    that output, with or without an active constraint. *)
Theorem filtered_df_idempotent (D : DataFrame) (cs : list string)
    (p : string) :
  ∃ out, filtered_df D cs p = Ok out ∧ filtered_df out cs p = Ok out.
Proof.
  destruct (decide (cs ≠ [] ∨ p ≠ "All")) as [Hact|Hno].
  - exists (filter (satisfies cs p "All") D).
    rewrite !filtered_df_active by done. split; [done|]. f_equal.
    rewrite list_filter_filter. apply list_filter_iff. intros r. tauto.
  - destruct cs as [|c cs]; [|exfalso; apply Hno; by left].
    destruct (decide (p = "All")) as [->|Hp]; [|exfalso; apply Hno; by right].
    exists (take 10 D). rewrite !filtered_df_inactive. unfold head_rows.
    split; [done|]. by rewrite take_take, Nat.min_id.
Qed.

(** ** Extreme values *)

Lemma foldr_str_min (x : string) (s : list string) :
  let m := foldr (λ y m, if bool_decide (y ≤ m)%string then y else m) x s in
  m ∈ x :: s ∧ ∀ v, v ∈ x :: s → (m ≤ v)%string.
Proof.
  induction s as [|y s [IHin IHle]]; cbn.
  - split; [left|]. intros v ->%list_elem_of_singleton. done.
  - case_bool_decide as Hy.
    + split; [right; left|].
      intros v [->|[->|Hv]%elem_of_cons]%elem_of_cons.
      * etrans; [exact Hy|]. apply IHle. left.
      * done.
      * etrans; [exact Hy|]. apply IHle. by right.
    + split.
      * apply elem_of_cons in IHin as [->|?]; [left|by do 2 right].
      * intros v [->|[->|Hv]%elem_of_cons]%elem_of_cons.
        -- apply IHle. left.
        -- by destruct (total String.le y
                 (foldr (λ y m, if bool_decide (y ≤ m)%string then y else m)
                    x s)).
        -- apply IHle. by right.
Qed.

Lemma foldr_str_max (x : string) (s : list string) :
  let m := foldr (λ y m, if bool_decide (m ≤ y)%string then y else m) x s in
  m ∈ x :: s ∧ ∀ v, v ∈ x :: s → (v ≤ m)%string.
Proof.
  induction s as [|y s [IHin IHle]]; cbn.
  - split; [left|]. intros v ->%list_elem_of_singleton. done.
  - case_bool_decide as Hy.
    + split; [right; left|].
      intros v [->|[->|Hv]%elem_of_cons]%elem_of_cons.
      * etrans; [|exact Hy]. apply IHle. left.
      * done.
      * etrans; [|exact Hy]. apply IHle. by right.
    + split.
      * apply elem_of_cons in IHin as [->|?]; [left|by do 2 right].
      * intros v [->|[->|Hv]%elem_of_cons]%elem_of_cons.
        -- apply IHle. left.
        -- by destruct (total String.le y
                 (foldr (λ y m, if bool_decide (m ≤ y)%string then y else m)
                    x s)).
        -- apply IHle. by right.
Qed.

(** X20: the minimum and maximum tables of the Analysis page: on a column
    with rows, [min()] and [max()] are values of the column and bound
    every value of it in the lexicographic order; on a column without rows
    both are the NaN marker. *)
Theorem str_min_max_bound_the_column (s : list string) :
  (s = [] → str_min s = None ∧ str_max s = None) ∧
  (s ≠ [] →
   ∃ lo hi, str_min s = Some lo ∧ str_max s = Some hi ∧
            lo ∈ s ∧ hi ∈ s ∧
            ∀ v, v ∈ s → (lo ≤ v)%string ∧ (v ≤ hi)%string).
Proof.
  split; [by intros ->|].
  intros Hne. destruct s as [|x s]; [done|].
  destruct (foldr_str_min x s) as [Hlo_in Hlo].
  destruct (foldr_str_max x s) as [Hhi_in Hhi].
  do 2 eexists. split; [reflexivity|]. split; [reflexivity|].
  split; [done|]. split; [done|]. intros v Hv. split; auto.
Qed.

Lemma str_min_max_bound_the_column_witness :
  ∃ lo hi, str_min (column Country four_rows) = Some lo ∧
           str_max (column Country four_rows) = Some hi ∧
           lo ∈ column Country four_rows ∧ hi ∈ column Country four_rows ∧
           ∀ v, v ∈ column Country four_rows →
                (lo ≤ v)%string ∧ (v ≤ hi)%string.
Proof.
  destruct (str_min_max_bound_the_column (column Country four_rows))
    as [_ Hbounds].
  apply Hbounds. discriminate.
Defined.

(** ** A failing export in the whole script *)

Lemma data_preview_no_save_from (sample_df : DataFrame) (ui : widgets)
    (s : session) (filtered : DataFrame) :
  filtered_df sample_df (ui_countries ui) (ui_product ui) = Ok filtered →
  ui_save ui = false →
  ∃ sc, data_preview sample_df ui s
        = (Ok tt, {| sys := sys s; screen := screen s ++ sc |}) ∧
        (∀ t, Success t ∉ sc).
Proof.
  intros Hf Hsave. unfold data_preview. step_script. rewrite Hf, Hsave.
  step_script. rewrite <- !app_assoc. cbn [app].
  eexists. split; [reflexivity|].
  intros t Hin. repeat (apply elem_of_cons in Hin as [Hin|Hin]; [done|]).
  by apply elem_of_nil in Hin.
Qed.

Lemma data_preview_fails_from (sample_df : DataFrame) (ui : widgets)
    (s : session) (filtered : DataFrame) (fault : write_fault) :
  filtered_df sample_df (ui_countries ui) (ui_product ui) = Ok filtered →
  ui_save ui = true →
  fault_at "Filtered_Data.csv" (faults (sys s)) = Some fault →
  ∃ sc, data_preview sample_df ui s
        = (Err (fault_exn fault),
           {| sys := match fault with
                     | OpenDenied =>
                         log_io (OpenWrite "Filtered_Data.csv") (sys s)
                     | WriteBroken remains =>
                         set_file "Filtered_Data.csv" remains
                           (log_io (OpenWrite "Filtered_Data.csv") (sys s))
                     end;
              screen := screen s ++ sc |}) ∧
        data_preview sample_df (with_save false ui) s
        = (Ok tt, {| sys := sys s; screen := screen s ++ sc |}) ∧
        (∀ t, Success t ∉ sc).
Proof.
  intros Hf Hsave Hfault. unfold data_preview. step_script.
  rewrite Hf, Hsave. unfold to_csv. step_script. rewrite Hfault.
  rewrite <- !app_assoc. cbn [app].
  eexists. split; [by destruct fault|]. split; [reflexivity|].
  intros t Hin. repeat (apply elem_of_cons in Hin as [Hin|Hin]; [done|]).
  by apply elem_of_nil in Hin.
Qed.

Lemma load_sample_loads (permutation : Z → nat → list nat) (s : session)
    (df : DataFrame) :
  files (sys s) !! file_path = Some df →
  3001 ≤ length df →
  ∃ sample_df, (load_sample permutation s).1 = Ok sample_df.
Proof.
  intros Hfile Hlen. rewrite load_sample_result, Hfile.
  rewrite sample_fits by done. by eexists.
Qed.

(** A run of the Data Preview page of the whole script that does not
    press the save button completes once the source file can be
    sampled. *)
Lemma dashboard_preview_no_save (permutation : Z → nat → list nat)
    (ui : widgets) (w : world) (df : DataFrame) :
  files w !! file_path = Some df →
  3001 ≤ length df →
  ui_page ui = "Data Preview" →
  ui_save ui = false →
  (run (dashboard permutation ui) w).1 = Completed.
Proof.
  intros Hfile Hlen Hpage Hsave.
  destruct (load_sample_loads permutation {| sys := w; screen := [] |} df)
    as [sample_df Hload]; [done..|].
  destruct (filtered_df_Ok sample_df (ui_countries ui) (ui_product ui))
    as [filtered Hf].
  unfold run. rewrite (dashboard_loaded permutation ui w sample_df Hload).
  rewrite then_emit, selected_page_preview by done.
  by destruct (data_preview_no_save_from sample_df ui
                 {| sys := log_io (OpenRead file_path) w;
                    screen := [ PageConfig "Imports/Exports Dashboard" "wide";
                                SidebarTitle "Navigation";
                                SidebarSelectbox "Select Page" page_names ] |}
                 filtered Hf Hsave) as (sc & -> & _).
Qed.

(** C8, as stated, on a run of the script that presses the save button
    while [Filtered_Data.csv] cannot be opened for writing: the run does
    not complete with a notice, it ends with the uncaught
    [PermissionError] of [to_csv], which is no [ExportError]. *)
Lemma export_failure_is_not_caught :
  (run (dashboard identity_permutation (with_save true no_selection))
       (denied_world_with_rows 3001)).1
  = Uncaught PermissionError ∧
  Uncaught PermissionError ≠ Completed ∧
  PermissionError ≠ Raise "ExportError".
Proof. split; [by vm_compute|]. split; discriminate. Qed.

(** C8 (amended): if the CSV export fails, the exception raised by
    [to_csv] ([PermissionError] when the file cannot be opened for
    writing, [OSError] when the write breaks off) is not caught by the
    script and ends the run as an uncaught exception.  The page then holds
    what a run without the button holds, less the footer that run ends
    with, and no success notice; every file other than
    [Filtered_Data.csv] is unchanged, and [Filtered_Data.csv] is unchanged
    when the open fails but holds what the broken write left when the
    write fails; the export is attempted once and not retried, and a
    further run without the button completes. *)
Theorem export_failure_uncaught_not_retried
    (permutation : Z → nat → list nat) (ui : widgets) (w : world)
    (df : DataFrame) (fault : write_fault) :
  files w !! file_path = Some df →
  3001 ≤ length df →
  ui_page ui = "Data Preview" →
  ui_save ui = true →
  fault_at "Filtered_Data.csv" (faults w) = Some fault →
  ∃ s,
    run (dashboard permutation ui) w = (Uncaught (fault_exn fault), s) ∧
    run (dashboard permutation (with_save false ui)) w
    = (Completed,
       {| sys := log_io (OpenRead file_path) w;
          screen := screen s
                    ++ [SidebarInfo "Developed by [Amitanshu Tiwari- 055054]"]
       |}) ∧
    (∀ t, Success t ∉ screen s) ∧
    (∀ other, other ≠ "Filtered_Data.csv" →
              files (sys s) !! other = files w !! other) ∧
    files (sys s) !! "Filtered_Data.csv"
    = match fault with
      | OpenDenied => files w !! "Filtered_Data.csv"
      | WriteBroken remains => Some remains
      end ∧
    trace (sys s)
    = trace w ++ [OpenRead file_path; OpenWrite "Filtered_Data.csv"] ∧
    (run (dashboard permutation (with_save false ui)) (sys s)).1 = Completed.
Proof.
  intros Hfile Hlen Hpage Hsave Hfault.
  destruct (load_sample_loads permutation {| sys := w; screen := [] |} df)
    as [sample_df Hload]; [done..|].
  destruct (filtered_df_Ok sample_df (ui_countries ui) (ui_product ui))
    as [filtered Hf].
  destruct (data_preview_fails_from sample_df ui
              {| sys := log_io (OpenRead file_path) w;
                 screen := [ PageConfig "Imports/Exports Dashboard" "wide";
                             SidebarTitle "Navigation";
                             SidebarSelectbox "Select Page" page_names ] |}
              filtered fault Hf Hsave Hfault)
    as (sc & Hfail & Hplain & Hnotice).
  eexists. split.
  { unfold run. rewrite (dashboard_loaded permutation ui w sample_df Hload).
    rewrite then_emit, selected_page_preview by done.
    rewrite Hfail. reflexivity. }
  cbn [screen sys]. split.
  { unfold run.
    rewrite (dashboard_loaded permutation (with_save false ui) w sample_df
               Hload).
    rewrite then_emit, selected_page_preview by done.
    rewrite Hplain. reflexivity. }
  split.
  { intros t Hin. apply elem_of_app in Hin as [Hin|Hin]; [|by eapply Hnotice].
    repeat (apply elem_of_cons in Hin as [Hin|Hin]; [done|]).
    by apply elem_of_nil in Hin. }
  assert (files (match fault with
                 | OpenDenied =>
                     log_io (OpenWrite "Filtered_Data.csv")
                       (log_io (OpenRead file_path) w)
                 | WriteBroken remains =>
                     set_file "Filtered_Data.csv" remains
                       (log_io (OpenWrite "Filtered_Data.csv")
                          (log_io (OpenRead file_path) w))
                 end) !! file_path = Some df) as Hsource.
  { destruct fault; cbn; [done|]. by rewrite lookup_insert_ne. }
  split; [|split; [|split]].
  - intros other Hother. destruct fault; cbn; [done|].
    by rewrite lookup_insert_ne.
  - destruct fault; cbn; [done|]. by rewrite lookup_insert_eq.
  - destruct fault; cbn; by rewrite <- app_assoc.
  - by apply (dashboard_preview_no_save permutation _ _ df).
Qed.

Lemma export_failure_uncaught_not_retried_witness :
  ∃ s,
    run (dashboard identity_permutation (with_save true no_selection))
        (denied_world_with_rows 3001)
    = (Uncaught (fault_exn OpenDenied), s) ∧
    run (dashboard identity_permutation
           (with_save false (with_save true no_selection)))
        (denied_world_with_rows 3001)
    = (Completed,
       {| sys := log_io (OpenRead file_path) (denied_world_with_rows 3001);
          screen := screen s
                    ++ [SidebarInfo "Developed by [Amitanshu Tiwari- 055054]"]
       |}) ∧
    (∀ t, Success t ∉ screen s) ∧
    (∀ other, other ≠ "Filtered_Data.csv" →
              files (sys s) !! other
              = files (denied_world_with_rows 3001) !! other) ∧
    files (sys s) !! "Filtered_Data.csv"
    = files (denied_world_with_rows 3001) !! "Filtered_Data.csv" ∧
    trace (sys s)
    = trace (denied_world_with_rows 3001)
      ++ [OpenRead file_path; OpenWrite "Filtered_Data.csv"] ∧
    (run (dashboard identity_permutation
            (with_save false (with_save true no_selection)))
         (sys s)).1
    = Completed.
Proof.
  apply (export_failure_uncaught_not_retried identity_permutation
           (with_save true no_selection) (denied_world_with_rows 3001)
           (numbered_rows 3001) OpenDenied).
  - reflexivity.
  - vm_compute. lia.
  - reflexivity.
  - reflexivity.
  - reflexivity.
Defined.

(** On a disk that fills up during the write the export file is left
    with what the broken write put there, not with what it held. *)
Example export_failure_truncates :
  let s := (run (dashboard identity_permutation (with_save true no_selection))
                (full_disk_world_with_rows 3001)).2 in
  (run (dashboard identity_permutation (with_save true no_selection))
       (full_disk_world_with_rows 3001)).1
  = Uncaught OSError ∧
  length <$> files (full_disk_world_with_rows 3001) !! "Filtered_Data.csv"
  = Some 4 ∧
  length <$> files (sys s) !! "Filtered_Data.csv" = Some 1.
Proof. by vm_compute. Qed.
